(** * PyChrometrics: psychrometric property functions and the wet-bulb solver

    A shallow embedding of the notebook [Untitled.ipynb]: the specific-heat
    correlations, the Hyland-Wexler saturation pressures, the humidity
    ratios [W_sat], [W], [W0], [W1] and the iterative solver [T_wb_iter].

    Conventions of the embedding.
    - A Python [float] is a real number: rounding, overflow, infinities
      and NaN of binary64 are not modelled, so every statement below is
      about the exact arithmetic of the formulas.  What Python adds to
      arithmetic is kept: [/] raises [ZeroDivisionError] on a zero divisor
      and [math.log] raises [ValueError] outside [(0, oo)].
    - A [pint] quantity is a magnitude with a unit; [.to(...)] converts
      through the base unit of the dimension and raises
      [DimensionalityError] across dimensions.
    - A function of the notebook is a function into [result].  A call of
      another function of the notebook is a call of its embedding; any
      other module-level name read inside a function body is looked up in
      an explicit [globals] environment.
    - The [while] loop of [T_wb_iter] has no bound in the source; it is run
      with a fuel argument that only the embedding has, and running out of
      it is the outcome [Running], distinct from returning and raising. *)

From Stdlib Require Import Reals Lra List String.
Import ListNotations.

Open Scope R_scope.

(** ** Python exceptions and fallible computations *)

(** The first four are what the interpreter and [pint] raise in the
    notebook's functions.  The last two are the failure conditions the
    specification names; no [raise] of the notebook produces them, and they
    are here so that statements about them can be written. *)
Inductive exn : Type :=
| ZeroDivisionError
| ValueError
| NameError
| DimensionalityError
| PhysicalLimitExceeded
| ConvergenceFailure (last_trial residual : R).

Inductive result (A : Type) : Type :=
| Ok (a : A)
| Raise (e : exn).

Arguments Ok {A} a.
Arguments Raise {A} e.

Definition bind {A B : Type} (c : result A) (k : A -> result B) : result B :=
  match c with
  | Ok a => k a
  | Raise e => Raise e
  end.

Notation "x <- c ;; k" := (bind c (fun x => k))
  (at level 61, c at next level, right associativity).

(** [x / y] on floats.  A division by a non-zero literal ([/ 2], [/ 100])
    cannot raise and is written with the plain [/]. *)
Definition div (x y : R) : result R :=
  if Req_EM_T y 0 then Raise ZeroDivisionError else Ok (x / y).

(** [math.log]. *)
Definition log (x : R) : result R :=
  if Rlt_dec 0 x then Ok (ln x) else Raise ValueError.

(** ** Quantities *)

Inductive unit_name : Type :=
| degF | degC | kelvin
| Pa | psi
| kJ_per_kg_K | kJ_per_kg_degC | Btu_per_lb_degF
| lb_per_lb | percent.

Inductive dimension : Type :=
| temperature | pressure | specific_heat | dimensionless.

Definition dimension_eqb (d1 d2 : dimension) : bool :=
  match d1, d2 with
  | temperature, temperature
  | pressure, pressure
  | specific_heat, specific_heat
  | dimensionless, dimensionless => true
  | _, _ => false
  end.

Definition dim (u : unit_name) : dimension :=
  match u with
  | degF | degC | kelvin => temperature
  | Pa | psi => pressure
  | kJ_per_kg_K | kJ_per_kg_degC | Btu_per_lb_degF => specific_heat
  | lb_per_lb | percent => dimensionless
  end.

(** The registry's definitions: a magnitude [x] in unit [u] is
    [x * factor u + offset u] in the base unit (kelvin, pascal,
    J/(kg K), 1).  In a compound unit a temperature is a difference, so
    ['kJ / (kg * degC)'] and ['kJ / (kg * K)'] are the same unit. *)
Definition pound : R := 0.45359237.        (* kg *)
Definition inch : R := 0.0254.             (* m *)
Definition g_0 : R := 9.80665.             (* m / s^2 *)
Definition Btu : R := 1055.056.            (* J *)

Definition factor (u : unit_name) : R :=
  match u with
  | degF => 5 / 9
  | degC | kelvin => 1
  | Pa => 1
  | psi => pound * g_0 / (inch * inch)
  | kJ_per_kg_K | kJ_per_kg_degC => 1000
  | Btu_per_lb_degF => Btu / (pound * (5 / 9))
  | lb_per_lb => 1
  | percent => 0.01
  end.

Definition offset (u : unit_name) : R :=
  match u with
  | degF => 233.15 + 200 / 9
  | degC => 273.15
  | _ => 0
  end.

Record qty : Type := Quantity { m : R; units : unit_name }.

(** [q.to(u)] *)
Definition to (u : unit_name) (q : qty) : result qty :=
  if dimension_eqb (dim (units q)) (dim u)
  then Ok (Quantity ((m q * factor (units q) + offset (units q) - offset u)
                     / factor u) u)
  else Raise DimensionalityError.

(** ** Specific heats *)

Definition Cp_water (T_wb : qty) : result qty :=
  T_wb <- to degC T_wb ;;
  let Cp_w := (0.0265 * m T_wb ^ 2 - 1.7688 * m T_wb + 4205.6) * 1e-3 in
  let Cp_w := Quantity Cp_w kJ_per_kg_K in
  to Btu_per_lb_degF Cp_w.

Definition Cp_vapor (T_db : qty) : result qty :=
  T_db <- to degC T_db ;;
  let Cp_vapor := (0.0016 * m T_db ^ 2 + 0.1546 * m T_db + 1858.7) * 1e-3 in
  let Cp_vapor := Quantity Cp_vapor kJ_per_kg_K in
  to Btu_per_lb_degF Cp_vapor.

Definition Cp_dry_air (T_db T_wb : qty) : result qty :=
  T_wb <- to degC T_wb ;;
  T_db <- to degC T_db ;;
  let Cp_dry_air := (0.0667 * (m T_db + m T_wb) / 2 + 1005) * 1e-3 in
  let Cp_dry_air := Quantity Cp_dry_air kJ_per_kg_degC in
  to Btu_per_lb_degF Cp_dry_air.

(** ** Saturation pressures (Hyland-Wexler) *)

(** [C[i]] for an index inside the list. *)
Definition item (C : list R) (i : nat) : R := nth i C 0.

Definition P_ice_sat (T_db : qty) : result qty :=
  let C := [ -5.6745359e03;
             6.3925247;
             -9.677843e-03;
             6.2215701e-07;
             2.0747825e-09;
             -9.4840240e-13;
             4.1635019e0 ] in
  T <- to kelvin T_db ;;
  let T := m T in
  q <- div (item C 0) T ;;
  l <- log T ;;
  let ln_P_is := q + item C 1 + item C 2 * T + item C 3 * T ^ 2
                 + item C 4 * T ^ 3 + item C 5 * T ^ 4 + item C 6 * l in
  let P_is := exp ln_P_is in
  let P_is := Quantity P_is Pa in
  to psi P_is.

Definition P_w_sat (T_db : qty) : result qty :=
  let C := [ -5.8002206e03;
             1.3914994e00;
             -4.8640239e-02;
             4.1764768e-05;
             -1.4452093e-08;
             6.5459673e00 ] in
  T <- to kelvin T_db ;;
  let T := m T in
  q <- div (item C 0) T ;;
  l <- log T ;;
  let ln_P_sat := q + item C 1 + item C 2 * T + item C 3 * T ^ 2
                  + item C 4 * T ^ 3 + item C 5 * l in
  let P_sat := exp ln_P_sat in
  let P_sat := Quantity P_sat Pa in
  to psi P_sat.

Definition P_v_sat (T_db : qty) : result qty :=
  if Rlt_dec (m T_db) 32 then P_ice_sat T_db else P_w_sat T_db.

(** ** Humidity ratios *)

Definition W_sat (T_db : qty) : result qty :=
  let Patm := Quantity 14.696 psi in
  Pws <- P_v_sat T_db ;;
  let MMR := Quantity 0.62198 lb_per_lb in
  W_sat <- div (m MMR * m Pws) (m Patm - m Pws) ;;
  Ok (Quantity W_sat lb_per_lb).

Definition W (T_db RH : qty) : result qty :=
  let Patm := Quantity 14.696 psi in
  Pws <- P_w_sat T_db ;;
  let MMR := Quantity 0.62198 lb_per_lb in
  W <- div (m MMR * (m Pws * m RH)) (m Patm - m Pws * m RH) ;;
  Ok (Quantity W lb_per_lb).

Definition W0 (Tdb Twb : qty) : result qty :=
  let h_fg := 1069.9 in
  Cp_w <- Cp_water Twb ;;
  Cp_v <- Cp_vapor Tdb ;;
  Cp_da <- Cp_dry_air Tdb Twb ;;
  Ws_wb <- W_sat Twb ;;
  let Cp_w := m Cp_w in
  let Cp_v := m Cp_v in
  let Cp_da := m Cp_da in
  let Ws_wb := m Ws_wb in
  let a := (h_fg - (Cp_w - Cp_v) * m Twb) * Ws_wb - Cp_da * (m Tdb - m Twb) in
  let b := h_fg + Cp_v * m Tdb - Cp_w * m Twb in
  W0 <- div a b ;;
  Ok (Quantity W0 lb_per_lb).

(** The names bound at module level when a function runs.  A name that a
    function body reads and that is neither a parameter nor a local is
    resolved here, and is a [NameError] when unbound. *)
Definition globals : Type := string -> option qty.

Definition global (g : globals) (name : string) : result qty :=
  match g name with
  | Some q => Ok q
  | None => Raise NameError
  end.

(** [W1]: the parameters are [T_db] and [T_wb]; the argument of [W_sat] is
    the name [Twb], which is not one of them. *)
Definition W1 (g : globals) (T_db T_wb : qty) : result qty :=
  let h_fg := 1069.9 in
  let Cp_da := 0.240 in
  let Cp_w := 0.999 in
  let Cp_v := 0.451 in
  Twb <- global g "Twb" ;;
  Ws_wb <- W_sat Twb ;;
  let Ws_wb := m Ws_wb in
  let a := (h_fg - (Cp_w - Cp_v) * m T_wb) * Ws_wb - Cp_da * (m T_db - m T_wb) in
  let b := h_fg + Cp_v * m T_db - Cp_w * m T_wb in
  W1 <- div a b ;;
  Ok (Quantity W1 lb_per_lb).

(** The module-level bindings of the notebook. *)
Definition notebook : globals :=
  fun name =>
    if String.eqb name "Twb" then Some (Quantity 45 degF)
    else if String.eqb name "Tdb" then Some (Quantity 65.0 degF)
    else if String.eqb name "RH" then Some (Quantity 0.14 percent)
    else None.

(** ** The wet-bulb solver *)

(** What [T_wb_iter] has done after at most [fuel] iterations of its loop. *)
Inductive outcome : Type :=
| Returned (T_wb : qty)
| Raised (e : exn)
| Running (T_wbm : R) (_W0 : qty).

Definition epsilon : R := 1e-6.

(** The closure [deltaW] reads [_W] and the current [_W0]. *)
Definition deltaW (_W _W0 : qty) : result R :=
  q <- div (Rabs (m _W - m _W0)) (m _W) ;;
  Ok (q / 100).

(** One pass through the body of the [while]. *)
Definition loop_body (T_db _W : qty) (T_wbm : R) (_W0 : qty)
  : result (R * qty) :=
  f <- (if Rgt_dec (Rabs (m _W0 - m _W)) 0
        then d <- deltaW _W _W0 ;; Ok (1 - d)
        else d <- deltaW _W _W0 ;; Ok (1 + d)) ;;
  let T_wbm := T_wbm * f in
  _W0 <- W0 T_db (Quantity T_wbm degF) ;;
  Ok (T_wbm, _W0).

Fixpoint while_loop (fuel : nat) (T_db _W : qty) (T_wbm : R) (_W0 : qty)
  : outcome :=
  if Rgt_dec (Rabs (m _W0 - m _W)) epsilon then
    match fuel with
    | O => Running T_wbm _W0
    | S fuel =>
        match loop_body T_db _W T_wbm _W0 with
        | Ok (T_wbm, _W0) => while_loop fuel T_db _W T_wbm _W0
        | Raise e => Raised e
        end
    end
  else Returned (Quantity T_wbm degF).

Definition T_wb_iter (fuel : nat) (T_db RH : qty) : outcome :=
  let (T_wb, T_wbm) := (T_db, m T_db) in
  match (_W <- W T_db RH ;; _W0 <- W0 T_db T_wb ;; Ok (_W, _W0)) with
  | Ok (_W, _W0) => while_loop fuel T_db _W T_wbm _W0
  | Raise e => Raised e
  end.

(** ** The solver as the specification words it

    Section 4.4 of the specification, over Fahrenheit magnitudes, with the
    two humidity-ratio functions it names as parameters. *)

Module Spec.
Section Solver.

Variable actual_humidity_ratio : R -> R -> result R.
Variable estimate_humidity_ratio_variable_cp : R -> R -> result R.

(** Step rule: [delta = (|W_target - W_est| / W_target) / 100], then
    [T_wb_trial *= (1 - delta)] if [|W_target - W_est| > 0], else
    [*= (1 + delta)]. *)
Definition step (W_target T_wb_trial W_est : R) : result R :=
  q <- div (Rabs (W_target - W_est)) W_target ;;
  let delta := q / 100 in
  Ok (if Rgt_dec (Rabs (W_target - W_est)) 0
      then T_wb_trial * (1 - delta)
      else T_wb_trial * (1 + delta)).

(** Loop while [|W_target - W_est| > epsilon]; each iteration steps and
    recomputes [W_est] at the original [T_db] and the new trial. *)
Fixpoint iterate (fuel : nat) (T_db W_target T_wb_trial W_est : R)
  : outcome :=
  if Rgt_dec (Rabs (W_target - W_est)) epsilon then
    match fuel with
    | O => Running T_wb_trial (Quantity W_est lb_per_lb)
    | S fuel =>
        match (T_wb_trial <- step W_target T_wb_trial W_est ;;
               W_est <- estimate_humidity_ratio_variable_cp T_db T_wb_trial ;;
               Ok (T_wb_trial, W_est)) with
        | Ok (T_wb_trial, W_est) =>
            iterate fuel T_db W_target T_wb_trial W_est
        | Raise e => Raised e
        end
    end
  else Returned (Quantity T_wb_trial degF).

(** Initialization: the target once, the trial at the dry bulb, the
    first estimate. *)
Definition solve_wet_bulb (fuel : nat) (T_db RH : R) : outcome :=
  match (W_target <- actual_humidity_ratio T_db RH ;;
         let T_wb_trial := T_db in
         W_est <- estimate_humidity_ratio_variable_cp T_db T_wb_trial ;;
         Ok (W_target, T_wb_trial, W_est)) with
  | Ok (W_target, T_wb_trial, W_est) =>
      iterate fuel T_db W_target T_wb_trial W_est
  | Raise e => Raised e
  end.

End Solver.

(** Section 4.3: the constant-cp estimate has the structure of the
    variable-cp estimate, with [Cp_da = 0.240], [Cp_w = 0.999] and
    [Cp_v = 0.451] for the computed specific heats; [Ws] is the saturated
    humidity ratio at the wet-bulb argument. *)
Definition estimate_humidity_ratio_constant_cp
  (saturated_humidity_ratio : R -> result R) (T_db T_wb : R) : result R :=
  let h_fg := 1069.9 in
  let Cp_da := 0.240 in
  let Cp_w := 0.999 in
  let Cp_v := 0.451 in
  Ws <- saturated_humidity_ratio T_wb ;;
  let a := (h_fg - (Cp_w - Cp_v) * T_wb) * Ws - Cp_da * (T_db - T_wb) in
  let b := h_fg + Cp_v * T_db - Cp_w * T_wb in
  div a b.

End Spec.

(** [W] and [W0] as the functions of Fahrenheit magnitudes that the
    specification's solver takes. *)
Definition actual_humidity_ratio (T_db RH : R) : result R :=
  w <- W (Quantity T_db degF) (Quantity RH lb_per_lb) ;;
  Ok (m w).

Definition estimate_humidity_ratio_variable_cp (T_db T_wb : R) : result R :=
  w <- W0 (Quantity T_db degF) (Quantity T_wb degF) ;;
  Ok (m w).

Definition solve_wet_bulb : nat -> R -> R -> outcome :=
  Spec.solve_wet_bulb actual_humidity_ratio estimate_humidity_ratio_variable_cp.

Definition saturated_humidity_ratio (T_db : R) : result R :=
  w <- W_sat (Quantity T_db degF) ;;
  Ok (m w).

Definition estimate_humidity_ratio_constant_cp : R -> R -> result R :=
  Spec.estimate_humidity_ratio_constant_cp saturated_humidity_ratio.



(** A run that has left the loop, by returning or by raising. *)
Definition finished (o : outcome) : Prop :=
  match o with
  | Running _ _ => False
  | _ => True
  end.


(** ** The solver without the enlarging branch *)

Definition shrink_body (T_db _W : qty) (T_wbm : R) (_W0 : qty)
  : result (R * qty) :=
  d <- deltaW _W _W0 ;;
  let T_wbm := T_wbm * (1 - d) in
  _W0 <- W0 T_db (Quantity T_wbm degF) ;;
  Ok (T_wbm, _W0).

Fixpoint shrink_loop (fuel : nat) (T_db _W : qty) (T_wbm : R) (_W0 : qty)
  : outcome :=
  if Rgt_dec (Rabs (m _W0 - m _W)) epsilon then
    match fuel with
    | O => Running T_wbm _W0
    | S fuel =>
        match shrink_body T_db _W T_wbm _W0 with
        | Ok (T_wbm, _W0) => shrink_loop fuel T_db _W T_wbm _W0
        | Raise e => Raised e
        end
    end
  else Returned (Quantity T_wbm degF).

Definition T_wb_iter_shrink (fuel : nat) (T_db RH : qty) : outcome :=
  let (T_wb, T_wbm) := (T_db, m T_db) in
  match (_W <- W T_db RH ;; _W0 <- W0 T_db T_wb ;; Ok (_W, _W0)) with
  | Ok (_W, _W0) => shrink_loop fuel T_db _W T_wbm _W0
  | Raise e => Raised e
  end.

(** ** Closed forms used in the proofs

    The value each correlation computes on a Fahrenheit magnitude, read off
    the definitions above ([P_w_sat_degF], [P_ice_sat_degF] below). *)

Definition kelvin_of_degF (t : R) : R := (t + 459.67) * 5 / 9.

Definition celsius_of_degF (t : R) : R := (t - 32) * 5 / 9.

Definition ln_P_w (T : R) : R :=
  -5.8002206e03 / T + 1.3914994e00 + -4.8640239e-02 * T
  + 4.1764768e-05 * T ^ 2 + -1.4452093e-08 * T ^ 3 + 6.5459673e00 * ln T.

Definition ln_P_ice (T : R) : R :=
  -5.6745359e03 / T + 6.3925247 + -9.677843e-03 * T
  + 6.2215701e-07 * T ^ 2 + 2.0747825e-09 * T ^ 3
  + -9.4840240e-13 * T ^ 4 + 4.1635019e0 * ln T.

(** By how much the exponent of the water correlation exceeds the
    exponent of the ice correlation at [T] kelvin. *)
Definition water_over_ice (T : R) : R := ln_P_w T - ln_P_ice T.

(** The pressure [P_v_sat] returns at [t] degrees Fahrenheit
    ([P_v_sat_degF] below). *)
Definition p_v (t : R) : R :=
  if Rlt_dec t 32
  then exp (ln_P_ice ((t + 459.67) * 5 / 9)) / factor psi
  else exp (ln_P_w ((t + 459.67) * 5 / 9)) / factor psi.

(** The two saturation pressures in psi at [t] degrees Fahrenheit, and the
    humidity ratio of a vapor pressure [p] in psi. *)
Definition p_w (t : R) : R := exp (ln_P_w (kelvin_of_degF t)) / factor psi.

Definition p_ice (t : R) : R := exp (ln_P_ice (kelvin_of_degF t)) / factor psi.

Definition ratio (p : R) : R := 0.62198 * p / (14.696 - p).

(** [Cp_water], [Cp_vapor] and [Cp_dry_air] on Fahrenheit magnitudes, in
    Btu/(lb F) ([Cp_water_degF] and the two lemmas after it). *)
Definition Btu_of_kJ (x : R) : R := x * 1000 / factor Btu_per_lb_degF.

Definition cp_w (t : R) : R :=
  Btu_of_kJ ((0.0265 * celsius_of_degF t ^ 2 - 1.7688 * celsius_of_degF t
              + 4205.6) * 1e-3).

Definition cp_v (t : R) : R :=
  Btu_of_kJ ((0.0016 * celsius_of_degF t ^ 2 + 0.1546 * celsius_of_degF t
              + 1858.7) * 1e-3).

Definition cp_da (t_db t_wb : R) : R :=
  Btu_of_kJ ((0.0667 * (celsius_of_degF t_db + celsius_of_degF t_wb) / 2
              + 1005) * 1e-3).

(** * Properties *)

(** ** Computation rules of the primitives *)

Lemma bind_Ok_inv {A B} (c : result A) (k : A -> result B) (b : B) :
  bind c k = Ok b -> exists a, c = Ok a /\ k a = Ok b.
Proof. destruct c as [a|e]; simpl; [eauto | discriminate]. Qed.

Lemma div_Ok (x y : R) : y <> 0 -> div x y = Ok (x / y).
Proof. intros Hy. unfold div. destruct (Req_EM_T y 0); [contradiction | reflexivity]. Qed.

Lemma div_zero (x : R) : div x 0 = Raise ZeroDivisionError.
Proof. unfold div. destruct (Req_EM_T 0 0); [reflexivity | contradiction]. Qed.

Lemma log_Ok (x : R) : 0 < x -> log x = Ok (ln x).
Proof. intros Hx. unfold log. destruct (Rlt_dec 0 x); [reflexivity | contradiction]. Qed.

Lemma log_Ok_inv (x l : R) : log x = Ok l -> 0 < x /\ l = ln x.
Proof.
  unfold log. destruct (Rlt_dec 0 x); [| discriminate].
  intros [= <-]. split; [assumption | reflexivity].
Qed.

Lemma to_degC_degF (t : R) :
  to degC (Quantity t degF) = Ok (Quantity ((t - 32) * 5 / 9) degC).
Proof. unfold to; simpl. do 2 f_equal. lra. Qed.

Lemma to_kelvin_degF (t : R) :
  to kelvin (Quantity t degF) = Ok (Quantity ((t + 459.67) * 5 / 9) kelvin).
Proof. unfold to; simpl. do 2 f_equal. lra. Qed.

Lemma to_psi_Pa (p : R) :
  to psi (Quantity p Pa) = Ok (Quantity (p / factor psi) psi).
Proof. unfold to; simpl. do 2 f_equal. lra. Qed.

Lemma factor_psi_bounds : 6894.75 < factor psi < 6894.76.
Proof.
  unfold factor, pound, g_0, inch. split.
  - apply Rmult_lt_reg_r with (0.0254 * 0.0254); [lra |].
    unfold Rdiv. rewrite Rmult_assoc, Rinv_l by lra. lra.
  - apply Rmult_lt_reg_r with (0.0254 * 0.0254); [lra |].
    unfold Rdiv. rewrite Rmult_assoc, Rinv_l by lra. lra.
Qed.

(** Every humidity ratio is returned in ['lb / lb']. *)
Lemma W_sat_units (T_db w : qty) : W_sat T_db = Ok w -> units w = lb_per_lb.
Proof.
  unfold W_sat. intros H.
  apply bind_Ok_inv in H as (Pws & _ & H).
  apply bind_Ok_inv in H as (x & _ & H).
  injection H as <-. reflexivity.
Qed.

Lemma W0_units (Tdb Twb w : qty) : W0 Tdb Twb = Ok w -> units w = lb_per_lb.
Proof.
  unfold W0. intros H.
  apply bind_Ok_inv in H as (? & _ & H).
  apply bind_Ok_inv in H as (? & _ & H).
  apply bind_Ok_inv in H as (? & _ & H).
  apply bind_Ok_inv in H as (? & _ & H).
  apply bind_Ok_inv in H as (? & _ & H).
  injection H as <-. reflexivity.
Qed.

Lemma qty_eta (q : qty) : Quantity (m q) (units q) = q.
Proof. destruct q; reflexivity. Qed.

(** [W] reads only the magnitude of [RH]. *)
Lemma W_RH_magnitude (T_db RH RH' : qty) :
  m RH = m RH' -> W T_db RH = W T_db RH'.
Proof. intros E. unfold W. rewrite E. reflexivity. Qed.

(** ** Branch selection of [P_v_sat] *)

Section Dispatch.

Lemma P_v_sat_ice (T_db : qty) : m T_db < 32 -> P_v_sat T_db = P_ice_sat T_db.
Proof.
  intros Ht. unfold P_v_sat.
  destruct (Rlt_dec (m T_db) 32); [reflexivity | contradiction].
Qed.

Lemma P_v_sat_water (T_db : qty) : 32 <= m T_db -> P_v_sat T_db = P_w_sat T_db.
Proof.
  intros Ht. unfold P_v_sat.
  destruct (Rlt_dec (m T_db) 32); [lra | reflexivity].
Qed.

(** C4: on a Fahrenheit temperature [P_v_sat] is the ice correlation
    exactly below 32 and the water correlation from 32 on, with nothing
    in between; so it is the ice branch at 31.9 and the water branch at
    32, the threshold itself, and at 32.1. *)
Theorem P_v_sat_dispatch :
  (forall t : R, t < 32 ->
     P_v_sat (Quantity t degF) = P_ice_sat (Quantity t degF)) /\
  (forall t : R, 32 <= t ->
     P_v_sat (Quantity t degF) = P_w_sat (Quantity t degF)) /\
  P_v_sat (Quantity 31.9 degF) = P_ice_sat (Quantity 31.9 degF) /\
  P_v_sat (Quantity 32 degF) = P_w_sat (Quantity 32 degF) /\
  P_v_sat (Quantity 32.1 degF) = P_w_sat (Quantity 32.1 degF).
Proof.
  repeat split.
  - intros t Ht. apply P_v_sat_ice. exact Ht.
  - intros t Ht. apply P_v_sat_water. exact Ht.
  - apply P_v_sat_ice. simpl. lra.
  - apply P_v_sat_water. simpl. lra.
  - apply P_v_sat_water. simpl. lra.
Qed.

End Dispatch.

(** ** The two humidity ratios and their saturation pressures *)

Section HumidityRatio.

Lemma W_sat_formula (T_db Pws : qty) :
  P_v_sat T_db = Ok Pws -> 14.696 - m Pws <> 0 ->
  W_sat T_db = Ok (Quantity (0.62198 * m Pws / (14.696 - m Pws)) lb_per_lb).
Proof.
  intros HP Hd. unfold W_sat. rewrite HP; simpl.
  rewrite div_Ok by exact Hd. reflexivity.
Qed.

Lemma W_formula (T_db RH Pws : qty) :
  P_w_sat T_db = Ok Pws -> 14.696 - m Pws * m RH <> 0 ->
  W T_db RH =
  Ok (Quantity (0.62198 * (m Pws * m RH) / (14.696 - m Pws * m RH)) lb_per_lb).
Proof.
  intros HP Hd. unfold W. rewrite HP; simpl.
  rewrite div_Ok by exact Hd. reflexivity.
Qed.

(** C5: whatever the temperature, below 32 F included, and for a relative
    humidity in [[0,1]], [W] is [0.62198 (Pws RH) / (14.696 - Pws RH)] with
    [Pws] from [P_w_sat], whenever that pressure is defined and the
    divisor is not zero; [W_sat] has the same shape with the pressure of
    the dispatching [P_v_sat], which below 32 F is [P_ice_sat]. *)
Theorem W_water_branch_always (t rh : R) (u : unit_name) (Pws : qty) :
  0 <= rh <= 1 ->
  P_w_sat (Quantity t degF) = Ok Pws ->
  14.696 - m Pws * rh <> 0 ->
  W (Quantity t degF) (Quantity rh u) =
    Ok (Quantity (0.62198 * (m Pws * rh) / (14.696 - m Pws * rh)) lb_per_lb)
  /\ (forall Pis : qty,
        t < 32 ->
        P_ice_sat (Quantity t degF) = Ok Pis ->
        14.696 - m Pis <> 0 ->
        W_sat (Quantity t degF) =
          Ok (Quantity (0.62198 * m Pis / (14.696 - m Pis)) lb_per_lb)).
Proof.
  intros _ HP Hd. split.
  - apply (W_formula (Quantity t degF) (Quantity rh u) Pws HP Hd).
  - intros Pis Ht HPis Hd'. apply W_sat_formula; [| exact Hd'].
    rewrite <- HPis. apply P_v_sat_ice. exact Ht.
Qed.

End HumidityRatio.

(** ** The correlations on a Fahrenheit magnitude *)

Section ClosedForms.

Lemma P_w_sat_degF (t : R) :
  0 < kelvin_of_degF t ->
  P_w_sat (Quantity t degF) =
  Ok (Quantity (exp (ln_P_w (kelvin_of_degF t)) / factor psi) psi).
Proof.
  intros HT. unfold P_w_sat. rewrite to_kelvin_degF. simpl bind.
  fold (kelvin_of_degF t). cbv beta zeta.
  rewrite div_Ok by lra. simpl bind.
  rewrite log_Ok by exact HT. simpl bind.
  rewrite to_psi_Pa. reflexivity.
Qed.

Lemma P_ice_sat_degF (t : R) :
  0 < kelvin_of_degF t ->
  P_ice_sat (Quantity t degF) =
  Ok (Quantity (exp (ln_P_ice (kelvin_of_degF t)) / factor psi) psi).
Proof.
  intros HT. unfold P_ice_sat. rewrite to_kelvin_degF. simpl bind.
  fold (kelvin_of_degF t). cbv beta zeta.
  rewrite div_Ok by lra. simpl bind.
  rewrite log_Ok by exact HT. simpl bind.
  rewrite to_psi_Pa. reflexivity.
Qed.

End ClosedForms.

(** ** Monotonicity of the water correlation *)

Section Monotone.

(** [ln y - ln x >= 1 - x / y], from [1 + u <= exp u] at [u = ln x - ln y]. *)
Lemma ln_diff_lower (x y : R) : 0 < x -> 0 < y -> 1 - x / y <= ln y - ln x.
Proof.
  intros Hx Hy.
  pose proof (exp_ineq1_le (ln x - ln y)) as H.
  replace (ln x - ln y) with (ln x + - ln y) in H by lra.
  rewrite exp_plus, exp_Ropp, !exp_ln in H by assumption.
  unfold Rdiv. lra.
Qed.

Lemma Rinv_diff (x y : R) : 0 < x -> 0 < y -> / x - / y = (y - x) * (/ x * / y).
Proof. intros Hx Hy. field. split; lra. Qed.

(** Between 255 K and 373 K (0 F to 212 F) the exponent of the water
    correlation grows by at least 0.025 per kelvin. *)
Lemma ln_P_w_slope (T1 T2 : R) :
  255 <= T1 -> T1 < T2 -> T2 <= 373 ->
  0.025 * (T2 - T1) <= ln_P_w T2 - ln_P_w T1.
Proof.
  intros H1 H12 H2.
  set (d := T2 - T1). assert (Hd : 0 < d) by (unfold d; lra).
  assert (Hi1 : / 373 <= / T1) by (apply Rinv_le_contravar; lra).
  assert (Hi2 : / 373 <= / T2) by (apply Rinv_le_contravar; lra).
  assert (Hi373 : 0.00268 < / 373).
  { apply Rmult_lt_reg_r with 373; [lra |]. rewrite Rinv_l by lra. lra. }
  (* C0 / T *)
  assert (A0 : 0.0416 * d <= -5.8002206e03 / T2 - -5.8002206e03 / T1).
  { replace (-5.8002206e03 / T2 - -5.8002206e03 / T1)
      with (5800.2206 * (/ T1 - / T2)) by (unfold Rdiv; lra).
    rewrite Rinv_diff by lra. fold d.
    assert (0.00268 * 0.00268 <= / T1 * / T2) by (apply Rmult_le_compat; lra).
    nra. }
  (* C3 T^2 *)
  assert (A3 : 0.0213 * d <= 4.1764768e-05 * T2 ^ 2 - 4.1764768e-05 * T1 ^ 2).
  { replace (4.1764768e-05 * T2 ^ 2 - 4.1764768e-05 * T1 ^ 2)
      with (4.1764768e-05 * (d * (T1 + T2))) by (unfold d; ring).
    assert (d * 510 <= d * (T1 + T2)) by (apply Rmult_le_compat_l; lra).
    lra. }
  (* C4 T^3 *)
  assert (A4 : -0.00604 * d <= -1.4452093e-08 * T2 ^ 3 - -1.4452093e-08 * T1 ^ 3).
  { replace (-1.4452093e-08 * T2 ^ 3 - -1.4452093e-08 * T1 ^ 3)
      with (-1.4452093e-08 * (d * (T1 * T1 + T1 * T2 + T2 * T2)))
      by (unfold d; ring).
    assert (T1 * T1 + T1 * T2 + T2 * T2 <= 3 * (373 * 373)) by nra.
    assert (d * (T1 * T1 + T1 * T2 + T2 * T2) <= d * (3 * (373 * 373)))
      by (apply Rmult_le_compat_l; lra).
    lra. }
  (* C5 ln T *)
  assert (A5 : 0.0175 * d <= 6.5459673e00 * ln T2 - 6.5459673e00 * ln T1).
  { pose proof (ln_diff_lower T1 T2 ltac:(lra) ltac:(lra)) as H.
    replace (1 - T1 / T2) with (d * / T2) in H by (unfold d; field; lra).
    assert (d * 0.00268 <= d * / T2) by (apply Rmult_le_compat_l; lra).
    lra. }
  unfold ln_P_w. unfold d in *. lra.
Qed.

Lemma ln_P_w_increasing (T1 T2 : R) :
  255 <= T1 -> T1 < T2 -> T2 <= 373 -> ln_P_w T1 < ln_P_w T2.
Proof.
  intros H1 H12 H2. pose proof (ln_P_w_slope T1 T2 H1 H12 H2). lra.
Qed.

Lemma factor_psi_pos : 0 < factor psi.
Proof. pose proof factor_psi_bounds. lra. Qed.



End Monotone.

(** ** Rational enclosures of [exp] and [ln] *)

Section Enclosures.

Lemma exp_double_lower (x a b : R) :
  a <= exp x -> 0 <= a -> b <= a * a -> b <= exp (2 * x).
Proof.
  intros Hx Ha Hb.
  replace (2 * x) with (x + x) by lra. rewrite exp_plus.
  assert (a * a <= exp x * exp x) by (apply Rmult_le_compat; lra).
  lra.
Qed.

Lemma exp_double_upper (x a b : R) :
  exp x <= a -> a * a <= b -> exp (2 * x) <= b.
Proof.
  intros Hx Hb. pose proof (exp_pos x) as Hp.
  replace (2 * x) with (x + x) by lra. rewrite exp_plus.
  assert (exp x * exp x <= a * a) by (apply Rmult_le_compat; lra).
  lra.
Qed.

Lemma exp_upper_small (x : R) : x < 1 -> exp x <= / (1 - x).
Proof.
  intros Hx.
  pose proof (exp_ineq1_le (- x)) as H. rewrite exp_Ropp in H.
  pose proof (exp_pos x) as Hp.
  rewrite <- (Rinv_inv (exp x)).
  apply Rinv_le_contravar; lra.
Qed.

Lemma exp_1_lower : 2.71 < exp 1.
Proof.
  assert (H0 : 1.001953125 <= exp (1 / 512))
    by (pose proof (exp_ineq1_le (1 / 512)); lra).
  pose proof (exp_double_lower _ _ 1.003910064 H0 ltac:(lra) ltac:(lra)) as H1.
  pose proof (exp_double_lower _ _ 1.007835416 H1 ltac:(lra) ltac:(lra)) as H2.
  pose proof (exp_double_lower _ _ 1.015732225 H2 ltac:(lra) ltac:(lra)) as H3.
  pose proof (exp_double_lower _ _ 1.031711952 H3 ltac:(lra) ltac:(lra)) as H4.
  pose proof (exp_double_lower _ _ 1.064429551 H4 ltac:(lra) ltac:(lra)) as H5.
  pose proof (exp_double_lower _ _ 1.133010269 H5 ltac:(lra) ltac:(lra)) as H6.
  pose proof (exp_double_lower _ _ 1.283712269 H6 ltac:(lra) ltac:(lra)) as H7.
  pose proof (exp_double_lower _ _ 1.647917189 H7 ltac:(lra) ltac:(lra)) as H8.
  pose proof (exp_double_lower _ _ 2.715631061 H8 ltac:(lra) ltac:(lra)) as H9.
  replace (2 * (2 * (2 * (2 * (2 * (2 * (2 * (2 * (2 * (1 / 512))))))))))
    with 1 in H9 by lra.
  lra.
Qed.

Lemma exp_1_upper : exp 1 < 2.73.
Proof.
  assert (H0 : exp (1 / 256) <= 1.003921569).
  { pose proof (exp_upper_small (1 / 256) ltac:(lra)) as H.
    assert (/ (1 - 1 / 256) <= 1.003921569); [| lra].
    replace (1 - 1 / 256) with (255 / 256) by lra.
    apply Rmult_le_reg_r with (255 / 256); [lra |].
    rewrite Rinv_l by lra. lra. }
  pose proof (exp_double_upper _ _ 1.007858517 H0 ltac:(lra)) as H1.
  pose proof (exp_double_upper _ _ 1.015778791 H1 ltac:(lra)) as H2.
  pose proof (exp_double_upper _ _ 1.031806553 H2 ltac:(lra)) as H3.
  pose proof (exp_double_upper _ _ 1.064624763 H3 ltac:(lra)) as H4.
  pose proof (exp_double_upper _ _ 1.133425886 H4 ltac:(lra)) as H5.
  pose proof (exp_double_upper _ _ 1.284654240 H5 ltac:(lra)) as H6.
  pose proof (exp_double_upper _ _ 1.650336517 H6 ltac:(lra)) as H7.
  pose proof (exp_double_upper _ _ 2.723610620 H7 ltac:(lra)) as H8.
  replace (2 * (2 * (2 * (2 * (2 * (2 * (2 * (2 * (1 / 256)))))))))
    with 1 in H8 by lra.
  lra.
Qed.

End Enclosures.

(** ** Specific heats on a Fahrenheit magnitude *)

Section SpecificHeat.

Lemma to_Btu_kJ_K (x : R) :
  to Btu_per_lb_degF (Quantity x kJ_per_kg_K) =
  Ok (Quantity (Btu_of_kJ x) Btu_per_lb_degF).
Proof. unfold to, Btu_of_kJ; simpl. do 2 f_equal. lra. Qed.

Lemma to_Btu_kJ_degC (x : R) :
  to Btu_per_lb_degF (Quantity x kJ_per_kg_degC) =
  Ok (Quantity (Btu_of_kJ x) Btu_per_lb_degF).
Proof. unfold to, Btu_of_kJ; simpl. do 2 f_equal. lra. Qed.

Lemma Cp_water_degF (t : R) :
  Cp_water (Quantity t degF) = Ok (Quantity (cp_w t) Btu_per_lb_degF).
Proof.
  unfold Cp_water. rewrite to_degC_degF. simpl bind. cbv zeta.
  rewrite to_Btu_kJ_K. reflexivity.
Qed.

Lemma Cp_vapor_degF (t : R) :
  Cp_vapor (Quantity t degF) = Ok (Quantity (cp_v t) Btu_per_lb_degF).
Proof.
  unfold Cp_vapor. rewrite to_degC_degF. simpl bind. cbv zeta.
  rewrite to_Btu_kJ_K. reflexivity.
Qed.

Lemma Cp_dry_air_degF (t_db t_wb : R) :
  Cp_dry_air (Quantity t_db degF) (Quantity t_wb degF) =
  Ok (Quantity (cp_da t_db t_wb) Btu_per_lb_degF).
Proof.
  unfold Cp_dry_air. rewrite !to_degC_degF. simpl bind. cbv zeta.
  rewrite to_Btu_kJ_degC. reflexivity.
Qed.

(** One kJ/(kg K) is a little under 0.23885 Btu/(lb F). *)
Lemma Btu_of_kJ_1 : 0.2388 < Btu_of_kJ 1 < 0.2389.
Proof.
  unfold Btu_of_kJ, factor, Btu, pound.
  replace (1 * 1000 / (1055.056 / (0.45359237 * (5 / 9))))
    with (1000 * 0.45359237 * 5 / (9 * 1055.056)) by (field; lra).
  split.
  - apply Rmult_lt_reg_r with (9 * 1055.056); [lra |].
    unfold Rdiv. rewrite Rmult_assoc, Rinv_l by lra. lra.
  - apply Rmult_lt_reg_r with (9 * 1055.056); [lra |].
    unfold Rdiv. rewrite Rmult_assoc, Rinv_l by lra. lra.
Qed.

Lemma Btu_of_kJ_scale (x : R) : Btu_of_kJ x = x * Btu_of_kJ 1.
Proof. unfold Btu_of_kJ. unfold Rdiv. ring. Qed.

(** Between -148 F and 200 F water is 0.5 to 0.7 Btu/(lb F) above vapor. *)
Lemma cp_gap (t : R) :
  -148 <= t <= 200 -> 0.5 < cp_w t - cp_v t < 0.7.
Proof.
  intros Ht. unfold cp_w, cp_v.
  rewrite (Btu_of_kJ_scale (_ * 1e-3)), (Btu_of_kJ_scale (_ * 1e-3)).
  pose proof Btu_of_kJ_1 as Hk.
  set (k := Btu_of_kJ 1) in *.
  set (c := celsius_of_degF t).
  assert (Hc : -100 <= c <= 94) by (unfold c, celsius_of_degF; lra).
  assert (Hc2 : 0 <= c ^ 2 <= 10000) by nra.
  set (g := (0.0265 * c ^ 2 - 1.7688 * c + 4205.6) * 1e-3
            - (0.0016 * c ^ 2 + 0.1546 * c + 1858.7) * 1e-3).
  assert (Hg : 2.16 < g < 2.8) by (unfold g; lra).
  replace ((0.0265 * c ^ 2 - 1.7688 * c + 4205.6) * 1e-3 * k
           - (0.0016 * c ^ 2 + 0.1546 * c + 1858.7) * 1e-3 * k)
    with (g * k) by (unfold g; ring).
  nra.
Qed.

Lemma W0_divisor_pos (t : R) :
  -148 <= t <= 200 -> 0 < 1069.9 + cp_v t * t - cp_w t * t.
Proof.
  intros Ht. pose proof (cp_gap t Ht) as Hg.
  replace (1069.9 + cp_v t * t - cp_w t * t)
    with (1069.9 - (cp_w t - cp_v t) * t) by ring.
  nra.
Qed.

Lemma W0_same_bulb (t : R) :
  -148 <= t <= 200 ->
  W0 (Quantity t degF) (Quantity t degF) = W_sat (Quantity t degF).
Proof.
  intros Ht. unfold W0.
  rewrite Cp_water_degF, Cp_vapor_degF, Cp_dry_air_degF. simpl bind.
  destruct (W_sat (Quantity t degF)) as [ws | e] eqn:E; [| reflexivity].
  simpl. pose proof (W0_divisor_pos t Ht) as Hb.
  rewrite div_Ok by lra. simpl.
  rewrite <- (qty_eta ws), (W_sat_units _ _ E). f_equal. f_equal.
  simpl. field. lra.
Qed.

End SpecificHeat.

(** ** Enclosures at the temperatures of the examples *)

Section Examples.

Lemma exp_INR (n : nat) : exp (INR n) = exp 1 ^ n.
Proof.
  induction n as [| n IH].
  - simpl. apply exp_0.
  - rewrite S_INR, exp_plus, IH. simpl. ring.
Qed.

Lemma exp_5_upper : exp 5 < 152.
Proof.
  replace 5 with (INR 5) by (simpl; lra). rewrite exp_INR.
  pose proof exp_1_upper as Hu. pose proof (exp_pos 1) as Hp.
  assert (exp 1 ^ 5 <= 2.73 ^ 5) by (apply pow_incr; lra).
  lra.
Qed.

Lemma exp_6_bounds : 396 < exp 6 < 414.
Proof.
  replace 6 with (INR 6) by (simpl; lra). rewrite exp_INR.
  pose proof exp_1_upper as Hu. pose proof exp_1_lower as Hl.
  assert (exp 1 ^ 6 <= 2.73 ^ 6) by (apply pow_incr; lra).
  assert (2.71 ^ 6 <= exp 1 ^ 6) by (apply pow_incr; lra).
  lra.
Qed.

Lemma exp_10_upper : exp 10 < 23000.
Proof.
  replace 10 with (INR 10) by (simpl; lra). rewrite exp_INR.
  pose proof exp_1_upper as Hu. pose proof (exp_pos 1) as Hp.
  assert (exp 1 ^ 10 <= 2.73 ^ 10) by (apply pow_incr; lra).
  lra.
Qed.

Lemma exp_12_lower : 156000 < exp 12.
Proof.
  replace 12 with (INR 12) by (simpl; lra). rewrite exp_INR.
  pose proof exp_1_lower as Hl.
  assert (2.71 ^ 12 <= exp 1 ^ 12) by (apply pow_incr; lra).
  lra.
Qed.

(** [ln] is between 5 and 6 from 152 to 396, and above 6 from 414 on. *)
Lemma ln_5_6 (T : R) : 152 <= T <= 396 -> 5 < ln T < 6.
Proof.
  intros HT. pose proof exp_5_upper. pose proof exp_6_bounds.
  split; apply exp_lt_inv; rewrite exp_ln by lra; lra.
Qed.

Lemma ln_above_6 (T : R) : 414 <= T -> 6 < ln T.
Proof.
  intros HT. pose proof exp_6_bounds.
  apply exp_lt_inv; rewrite exp_ln by lra; lra.
Qed.

(** 65 F is 291.48 K; the water correlation gives between exp 3 and
    exp 10 pascal there. *)
Lemma ln_P_w_65 : 3 < ln_P_w (kelvin_of_degF 65) < 10.
Proof.
  unfold ln_P_w. set (T := kelvin_of_degF 65).
  assert (HT : 291.48 < T < 291.49) by (unfold T, kelvin_of_degF; lra).
  pose proof (ln_5_6 T ltac:(lra)) as Hln.
  assert (H0 : -19.9 < -5.8002206e03 / T < -19.89).
  { split.
    - apply Rmult_lt_reg_r with T; [lra |].
      unfold Rdiv. rewrite Rmult_assoc, Rinv_l by lra. nra.
    - apply Rmult_lt_reg_r with T; [lra |].
      unfold Rdiv. rewrite Rmult_assoc, Rinv_l by lra. nra. }
  assert (H2 : 84960 < T ^ 2 < 84967) by nra.
  assert (H3 : 24764000 < T ^ 3 < 24768000).
  { replace (T ^ 3) with (T * T ^ 2) by ring. nra. }
  lra.
Qed.

Lemma P_w_sat_65 :
  exists p : R,
    P_w_sat (Quantity 65 degF) = Ok (Quantity p psi) /\ 0.002 < p < 4.
Proof.
  exists (exp (ln_P_w (kelvin_of_degF 65)) / factor psi). split.
  - apply P_w_sat_degF. unfold kelvin_of_degF. lra.
  - pose proof ln_P_w_65 as [Hl Hu].
    apply exp_increasing in Hl, Hu.
    pose proof exp_10_upper. pose proof exp_1_lower.
    assert (2.71 ^ 3 <= exp 1 ^ 3) by (apply pow_incr; lra).
    assert (E3 : exp 3 = exp 1 ^ 3).
    { replace 3 with (INR 3) by (simpl; lra). apply exp_INR. }
    pose proof factor_psi_bounds as Hf.
    set (P := exp (ln_P_w (kelvin_of_degF 65))) in *.
    assert (19 < P < 23000) by lra.
    split.
    + apply Rmult_lt_reg_r with (factor psi); [lra |].
      unfold Rdiv. rewrite Rmult_assoc, Rinv_l by lra. nra.
    + apply Rmult_lt_reg_r with (factor psi); [lra |].
      unfold Rdiv. rewrite Rmult_assoc, Rinv_l by lra. nra.
Qed.

Lemma W_sat_65 :
  exists w : R,
    W_sat (Quantity 65 degF) = Ok (Quantity w lb_per_lb) /\ 0.00008 < w.
Proof.
  destruct P_w_sat_65 as (p & HP & Hp).
  exists (0.62198 * p / (14.696 - p)). split.
  - rewrite (W_sat_formula _ (Quantity p psi)); [reflexivity | | simpl; lra].
    rewrite P_v_sat_water by (simpl; lra). exact HP.
  - apply Rmult_lt_reg_r with (14.696 - p); [lra |].
    unfold Rdiv. rewrite Rmult_assoc, Rinv_l by lra. nra.
Qed.

Lemma W0_65_65 :
  exists w : R,
    W0 (Quantity 65 degF) (Quantity 65 degF) = Ok (Quantity w lb_per_lb)
    /\ 0.00008 < w.
Proof.
  destruct W_sat_65 as (w & HW & Hw). exists w.
  rewrite W0_same_bulb by lra. split; assumption.
Qed.

End Examples.

(** ** Where the saturation pressures are defined *)

Section Definedness.

(** Both correlations run the same fallible steps on the same kelvin
    value: the conversion, a division by it and its logarithm. *)
Lemma P_w_sat_Ok_iff (T_db : qty) :
  (exists p, P_w_sat T_db = Ok p) <->
  (exists T, to kelvin T_db = Ok T /\ 0 < m T).
Proof.
  unfold P_w_sat. split.
  - intros (p & H).
    apply bind_Ok_inv in H as (T & HT & H). cbv zeta in H.
    apply bind_Ok_inv in H as (q & _ & H).
    apply bind_Ok_inv in H as (l & Hl & _).
    apply log_Ok_inv in Hl as [Hpos _]. exists T. split; assumption.
  - intros (T & HT & Hpos). rewrite HT. simpl bind. cbv zeta.
    rewrite div_Ok by lra. simpl bind. rewrite log_Ok by exact Hpos.
    simpl bind. rewrite to_psi_Pa. eexists. reflexivity.
Qed.

Lemma P_ice_sat_Ok_iff (T_db : qty) :
  (exists p, P_ice_sat T_db = Ok p) <->
  (exists T, to kelvin T_db = Ok T /\ 0 < m T).
Proof.
  unfold P_ice_sat. split.
  - intros (p & H).
    apply bind_Ok_inv in H as (T & HT & H). cbv zeta in H.
    apply bind_Ok_inv in H as (q & _ & H).
    apply bind_Ok_inv in H as (l & Hl & _).
    apply log_Ok_inv in Hl as [Hpos _]. exists T. split; assumption.
  - intros (T & HT & Hpos). rewrite HT. simpl bind. cbv zeta.
    rewrite div_Ok by lra. simpl bind. rewrite log_Ok by exact Hpos.
    simpl bind. rewrite to_psi_Pa. eexists. reflexivity.
Qed.

Lemma P_v_sat_Ok_P_w_sat (T_db p : qty) :
  P_v_sat T_db = Ok p -> exists p', P_w_sat T_db = Ok p'.
Proof.
  unfold P_v_sat. destruct (Rlt_dec (m T_db) 32); intros H.
  - apply P_w_sat_Ok_iff, P_ice_sat_Ok_iff. exists p. exact H.
  - exists p. exact H.
Qed.

Lemma W0_Ok_P_w_sat (Tdb Twb w : qty) :
  W0 Tdb Twb = Ok w -> exists p, P_w_sat Twb = Ok p.
Proof.
  unfold W0. intros H.
  apply bind_Ok_inv in H as (? & _ & H).
  apply bind_Ok_inv in H as (? & _ & H).
  apply bind_Ok_inv in H as (? & _ & H).
  apply bind_Ok_inv in H as (ws & Hws & _).
  unfold W_sat in Hws.
  apply bind_Ok_inv in Hws as (p & Hp & _).
  exact (P_v_sat_Ok_P_w_sat _ _ Hp).
Qed.

End Definedness.

(** ** The solver at zero relative humidity *)

Section ZeroHumidity.

Lemma deltaW_zero_target (_W _W0 : qty) :
  m _W = 0 -> deltaW _W _W0 = Raise ZeroDivisionError.
Proof. intros E. unfold deltaW. rewrite E, div_zero. reflexivity. Qed.

Lemma loop_body_zero_target (T_db _W : qty) (T_wbm : R) (_W0 : qty) :
  m _W = 0 -> loop_body T_db _W T_wbm _W0 = Raise ZeroDivisionError.
Proof.
  intros E. unfold loop_body. rewrite (deltaW_zero_target _ _ E).
  destruct (Rgt_dec _ 0); reflexivity.
Qed.

Lemma epsilon_small (w : R) : 0.00008 < w -> Rabs w > epsilon.
Proof.
  intros Hw. unfold epsilon. rewrite Rabs_pos_eq by lra. lra.
Qed.

(** A dry bulb and a relative humidity of magnitude zero for which the
    first estimate is defined and farther than [epsilon] from zero. *)
Variables T_db RH w0 : qty.
Hypothesis RH_zero : m RH = 0.
Hypothesis first_estimate : W0 T_db T_db = Ok w0.
Hypothesis off_target : Rabs (m w0) > epsilon.

Lemma W_RH_zero : W T_db RH = Ok (Quantity 0 lb_per_lb).
Proof.
  destruct (W0_Ok_P_w_sat _ _ _ first_estimate) as (Pws & HP).
  rewrite (W_formula _ _ Pws HP) by (rewrite RH_zero; lra).
  rewrite RH_zero. do 2 f_equal. unfold Rdiv. ring.
Qed.

Lemma guard_zero_target : Rabs (m w0 - 0) > epsilon.
Proof. rewrite Rminus_0_r. exact off_target. Qed.


Lemma T_wb_iter_zero_target (fuel : nat) :
  T_wb_iter (S fuel) T_db RH = Raised ZeroDivisionError.
Proof.
  unfold T_wb_iter. cbv zeta. rewrite W_RH_zero, first_estimate.
  simpl bind. cbv iota beta. simpl while_loop.
  destruct (Rgt_dec (Rabs (m w0 - 0)) epsilon) as [_ | Hn].
  - rewrite loop_body_zero_target by reflexivity. reflexivity.
  - contradiction guard_zero_target.
Qed.

(** C10: at [RH = 0] the target [W(T_db, 0)] is exactly zero; so when the
    first estimate [W0(T_db, T_db)] is farther than [1e-6] from zero the
    loop is entered and its first [deltaW()] divides by the zero target:
    [T_wb_iter] raises [ZeroDivisionError] in its first iteration, and
    neither returns nor iterates on. *)
Theorem T_wb_iter_RH_zero_raises (fuel : nat) :
  W T_db RH = Ok (Quantity 0 lb_per_lb) /\
  T_wb_iter (S fuel) T_db RH = Raised ZeroDivisionError.
Proof.
  split.
  - exact W_RH_zero.
  - exact (T_wb_iter_zero_target fuel).
Qed.

End ZeroHumidity.

Lemma T_wb_iter_RH_zero_raises_witness :
  W (Quantity 65 degF) (Quantity 0 percent) = Ok (Quantity 0 lb_per_lb) /\
  T_wb_iter 1 (Quantity 65 degF) (Quantity 0 percent) = Raised ZeroDivisionError.
Proof.
  destruct W0_65_65 as (w & H0 & Hw).
  apply (T_wb_iter_RH_zero_raises (Quantity 65 degF) (Quantity 0 percent)
           (Quantity w lb_per_lb)).
  - reflexivity.
  - exact H0.
  - apply epsilon_small. exact Hw.
Defined.

(** ** The fuel of the loop *)

Section Fuel.

(** With the tolerance met the loop is left at once, whatever the fuel. *)
Lemma while_loop_converged (fuel : nat) (T_db _W : qty) (T_wbm : R) (_W0 : qty) :
  Rabs (m _W0 - m _W) <= epsilon ->
  while_loop fuel T_db _W T_wbm _W0 = Returned (Quantity T_wbm degF).
Proof.
  intros Hle.
  destruct fuel; simpl;
    (destruct (Rgt_dec (Rabs (m _W0 - m _W)) epsilon); [lra | reflexivity]).
Qed.

(** A run that has returned or raised does the same with more fuel. *)
Lemma while_loop_more_fuel (fuel extra : nat) (T_db _W : qty) :
  forall (T_wbm : R) (_W0 : qty),
    finished (while_loop fuel T_db _W T_wbm _W0) ->
    while_loop (fuel + extra) T_db _W T_wbm _W0
    = while_loop fuel T_db _W T_wbm _W0.
Proof.
  induction fuel as [| fuel IH]; intros T_wbm _W0 Hfin.
  - simpl in Hfin. destruct extra; simpl;
      destruct (Rgt_dec (Rabs (m _W0 - m _W)) epsilon);
      solve [reflexivity | contradiction].
  - simpl in *. destruct (Rgt_dec (Rabs (m _W0 - m _W)) epsilon);
      [| reflexivity].
    destruct (loop_body T_db _W T_wbm _W0) as [[T' w'] | e];
      [apply IH; exact Hfin | reflexivity].
Qed.

Lemma T_wb_iter_more_fuel (fuel extra : nat) (T_db RH : qty) :
  finished (T_wb_iter fuel T_db RH) ->
  T_wb_iter (fuel + extra) T_db RH = T_wb_iter fuel T_db RH.
Proof.
  unfold T_wb_iter. cbv zeta.
  destruct (W T_db RH) as [_W | e]; [| reflexivity]. simpl bind.
  destruct (W0 T_db T_db) as [_W0 | e]; [| reflexivity]. simpl bind.
  cbv iota beta. apply while_loop_more_fuel.
Qed.

End Fuel.

(** ** The step rule *)

Section StepRule.

Lemma guard_positive (_W _W0 : qty) :
  Rabs (m _W0 - m _W) > epsilon -> Rabs (m _W0 - m _W) > 0.
Proof. unfold epsilon. lra. Qed.

Lemma loop_body_shrinks (T_db _W : qty) (T_wbm : R) (_W0 : qty) :
  Rabs (m _W0 - m _W) > epsilon ->
  loop_body T_db _W T_wbm _W0 = shrink_body T_db _W T_wbm _W0.
Proof.
  intros Hg. apply guard_positive in Hg.
  unfold loop_body, shrink_body.
  destruct (Rgt_dec (Rabs (m _W0 - m _W)) 0); [| contradiction].
  destruct (deltaW _W _W0); reflexivity.
Qed.

Lemma while_loop_shrinks (fuel : nat) (T_db _W : qty) :
  forall (T_wbm : R) (_W0 : qty),
    while_loop fuel T_db _W T_wbm _W0 = shrink_loop fuel T_db _W T_wbm _W0.
Proof.
  induction fuel as [| fuel IH]; intros T_wbm _W0; simpl.
  - reflexivity.
  - destruct (Rgt_dec (Rabs (m _W0 - m _W)) epsilon) as [Hg | _]; [| reflexivity].
    rewrite (loop_body_shrinks _ _ _ _ Hg).
    destruct (shrink_body T_db _W T_wbm _W0) as [[T' w'] | e]; [apply IH | reflexivity].
Qed.

(** C8: the enlarging branch is dead.  Whenever the guard of the loop
    holds, [|W_est - W_target| > 1e-6], the test of the step rule,
    [|W_est - W_target| > 0], holds too, and the body multiplies the trial
    by [1 - delta]; so in every run, for every input and any number of
    iterations, the solver does what the solver without the [1 + delta]
    branch does. *)
Theorem enlarging_branch_dead :
  (forall (T_db _W : qty) (T_wbm : R) (_W0 : qty),
     Rabs (m _W0 - m _W) > epsilon ->
     Rabs (m _W0 - m _W) > 0 /\
     loop_body T_db _W T_wbm _W0 =
       (d <- deltaW _W _W0 ;;
        _W0' <- W0 T_db (Quantity (T_wbm * (1 - d)) degF) ;;
        Ok (T_wbm * (1 - d), _W0'))) /\
  (forall (fuel : nat) (T_db RH : qty),
     T_wb_iter fuel T_db RH = T_wb_iter_shrink fuel T_db RH).
Proof.
  split.
  - intros T_db _W T_wbm _W0 Hg. split.
    + exact (guard_positive _ _ Hg).
    + rewrite (loop_body_shrinks _ _ _ _ Hg). reflexivity.
  - intros fuel T_db RH. unfold T_wb_iter, T_wb_iter_shrink. cbv zeta.
    destruct (W T_db RH) as [_W | e]; [| reflexivity]. simpl bind.
    destruct (W0 T_db T_db) as [_W0 | e]; [| reflexivity]. simpl bind.
    cbv iota beta. apply while_loop_shrinks.
Qed.

End StepRule.

(** ** The solver against the specification's algorithm *)

Section Refinement.

Lemma estimate_Ok (t T : R) (w : qty) :
  W0 (Quantity t degF) (Quantity T degF) = Ok w ->
  estimate_humidity_ratio_variable_cp t T = Ok (m w)
  /\ Quantity (m w) lb_per_lb = w.
Proof.
  intros H. unfold estimate_humidity_ratio_variable_cp. rewrite H. split.
  - reflexivity.
  - rewrite <- (W0_units _ _ _ H). apply qty_eta.
Qed.

Lemma estimate_Raise (t T : R) (e : exn) :
  W0 (Quantity t degF) (Quantity T degF) = Raise e ->
  estimate_humidity_ratio_variable_cp t T = Raise e.
Proof.
  intros H. unfold estimate_humidity_ratio_variable_cp. rewrite H. reflexivity.
Qed.

Lemma while_loop_iterate (fuel : nat) (t : R) (_W : qty) :
  forall (T_wbm w0 : R),
    while_loop fuel (Quantity t degF) _W T_wbm (Quantity w0 lb_per_lb) =
    Spec.iterate estimate_humidity_ratio_variable_cp fuel t (m _W) T_wbm w0.
Proof.
  induction fuel as [| fuel IH]; intros T_wbm w0; simpl;
    rewrite (Rabs_minus_sym w0 (m _W));
    destruct (Rgt_dec (Rabs (m _W - w0)) epsilon) as [Hg | Hg];
    try reflexivity.
  unfold loop_body, deltaW, Spec.step. simpl m.
  rewrite (Rabs_minus_sym w0 (m _W)).
  destruct (div (Rabs (m _W - w0)) (m _W)) as [q | e].
  - destruct (Rgt_dec (Rabs (m _W - w0)) 0); simpl bind; cbv zeta.
    + destruct (W0 (Quantity t degF) (Quantity (T_wbm * (1 - q / 100)) degF))
        as [w | e] eqn:E.
      * destruct (estimate_Ok _ _ _ E) as [-> Eq]. simpl.
        rewrite <- Eq at 1. apply IH.
      * rewrite (estimate_Raise _ _ _ E). reflexivity.
    + destruct (W0 (Quantity t degF) (Quantity (T_wbm * (1 + q / 100)) degF))
        as [w | e] eqn:E.
      * destruct (estimate_Ok _ _ _ E) as [-> Eq]. simpl.
        rewrite <- Eq at 1. apply IH.
      * rewrite (estimate_Raise _ _ _ E). reflexivity.
  - destruct (Rgt_dec (Rabs (m _W - w0)) 0); reflexivity.
Qed.

(** C1: on a Fahrenheit dry bulb [T_wb_iter] is the algorithm of the
    specification: the trial starts at [T_db], the target is [W(T_db, RH)]
    computed once, each iteration computes
    [delta = (|W_target - W_est| / W_target) / 100], multiplies the trial by
    [1 - delta] when [|W_target - W_est| > 0] and by [1 + delta] otherwise,
    recomputes [W_est = W0] at the original [T_db] and the new trial, the
    loop runs while [|W_target - W_est| > 1e-6], and the trial is returned
    in degrees Fahrenheit.  The two agree on every input after any number
    of iterations, in what they return, in what they raise and in the
    state they are in when still iterating. *)
Theorem T_wb_iter_is_specified_algorithm (fuel : nat) (t : R) (RH : qty) :
  T_wb_iter fuel (Quantity t degF) RH = solve_wet_bulb fuel t (m RH).
Proof.
  unfold T_wb_iter, solve_wet_bulb, Spec.solve_wet_bulb, actual_humidity_ratio.
  cbv zeta.
  rewrite (W_RH_magnitude (Quantity t degF) RH (Quantity (m RH) lb_per_lb))
    by reflexivity.
  destruct (W (Quantity t degF) (Quantity (m RH) lb_per_lb)) as [_W | e];
    [| reflexivity].
  simpl bind.
  destruct (W0 (Quantity t degF) (Quantity t degF)) as [_W0 | e] eqn:E.
  - destruct (estimate_Ok _ _ _ E) as [-> Eq]. simpl.
    rewrite <- Eq at 1. apply while_loop_iterate.
  - rewrite (estimate_Raise _ _ _ E). reflexivity.
Qed.

End Refinement.

(** ** Saturated humidity ratio over water, 32 F to 65 F *)

Section WarmRange.

Lemma p_w_pos (t : R) : 0 < p_w t.
Proof.
  unfold p_w. apply Rdiv_lt_0_compat; [apply exp_pos | apply factor_psi_pos].
Qed.

Lemma p_w_increasing (t1 t2 : R) :
  0 <= t1 -> t1 < t2 -> t2 <= 211 -> p_w t1 < p_w t2.
Proof.
  intros H1 H12 H2. unfold p_w, Rdiv. apply Rmult_lt_compat_r.
  - apply Rinv_0_lt_compat, factor_psi_pos.
  - apply exp_increasing, ln_P_w_increasing; unfold kelvin_of_degF; lra.
Qed.

Lemma p_w_65_upper : p_w 65 < 4.
Proof.
  destruct P_w_sat_65 as (p & HP & Hp).
  rewrite P_w_sat_degF in HP by (unfold kelvin_of_degF; lra).
  injection HP as <-. exact (proj2 Hp).
Qed.

Lemma ratio_increasing (p1 p2 : R) :
  0 <= p1 -> p1 < p2 -> p2 < 14.696 -> ratio p1 < ratio p2.
Proof.
  intros H1 H12 H2. unfold ratio.
  apply Rmult_lt_reg_r with ((14.696 - p1) * (14.696 - p2)); [nra |].
  replace (0.62198 * p1 / (14.696 - p1) * ((14.696 - p1) * (14.696 - p2)))
    with (0.62198 * p1 * (14.696 - p2)) by (field; lra).
  replace (0.62198 * p2 / (14.696 - p2) * ((14.696 - p1) * (14.696 - p2)))
    with (0.62198 * p2 * (14.696 - p1)) by (field; lra).
  nra.
Qed.

Lemma W_sat_water_degF (t : R) :
  32 <= t -> p_w t <> 14.696 ->
  W_sat (Quantity t degF) = Ok (Quantity (ratio (p_w t)) lb_per_lb).
Proof.
  intros Ht Hp.
  rewrite (W_sat_formula _ (Quantity (p_w t) psi)).
  - reflexivity.
  - rewrite P_v_sat_water by (simpl; lra).
    apply P_w_sat_degF. unfold kelvin_of_degF. lra.
  - simpl. lra.
Qed.

Lemma W_sat_warm (t : R) :
  32 <= t <= 65 ->
  W_sat (Quantity t degF) = Ok (Quantity (ratio (p_w t)) lb_per_lb)
  /\ 0 < p_w t < 4.
Proof.
  intros Ht.
  assert (Hp : 0 < p_w t < 4).
  { split; [apply p_w_pos |].
    destruct (Req_dec t 65) as [-> | Hne]; [apply p_w_65_upper |].
    pose proof (p_w_increasing t 65 ltac:(lra) ltac:(lra) ltac:(lra)).
    pose proof p_w_65_upper. lra. }
  split; [| exact Hp]. apply W_sat_water_degF; lra.
Qed.

End WarmRange.

(** ** The constant-cp estimate [W1] *)

Section ConstantCp.

Lemma W1_unbound (g : globals) (T_db T_wb : qty) :
  g "Twb"%string = None -> W1 g T_db T_wb = Raise NameError.
Proof. intros E. unfold W1, global. rewrite E. reflexivity. Qed.

Lemma W1_bound (g : globals) (T_db T_wb Twb : qty) (Ws_wb : R) :
  g "Twb"%string = Some Twb ->
  W_sat Twb = Ok (Quantity Ws_wb lb_per_lb) ->
  W1 g T_db T_wb =
  (W1 <- div ((1069.9 - (0.999 - 0.451) * m T_wb) * Ws_wb
              - 0.240 * (m T_db - m T_wb))
             (1069.9 + 0.451 * m T_db - 0.999 * m T_wb) ;;
   Ok (Quantity W1 lb_per_lb)).
Proof. intros E HW. unfold W1, global. rewrite E. simpl bind. rewrite HW. reflexivity. Qed.

(** C3, on the code: [W1] is not a function of its two arguments.  Called
    at 65 F and 50 F with no module-level [Twb] it raises [NameError];
    called with the notebook's [Twb = 45 F] it returns a humidity ratio
    computed from [W_sat(45 F)], which is strictly below the value the
    specification's constant-cp estimate has at 65 F and 50 F. *)
Theorem W1_reads_module_level_Twb :
  W1 (fun _ => None) (Quantity 65 degF) (Quantity 50 degF) = Raise NameError /\
  exists w w' : R,
    W1 notebook (Quantity 65 degF) (Quantity 50 degF)
      = Ok (Quantity w lb_per_lb) /\
    estimate_humidity_ratio_constant_cp 65 50 = Ok w' /\
    w < w'.
Proof.
  split; [apply W1_unbound; reflexivity |].
  destruct (W_sat_warm 45 ltac:(lra)) as [H45 B45].
  destruct (W_sat_warm 50 ltac:(lra)) as [H50 B50].
  pose proof (p_w_increasing 45 50 ltac:(lra) ltac:(lra) ltac:(lra)) as Hinc.
  pose proof (ratio_increasing (p_w 45) (p_w 50) ltac:(lra) Hinc ltac:(lra)) as Hr.
  set (b := 1069.9 + 0.451 * 65 - 0.999 * 50).
  assert (Hb : 0 < b) by (unfold b; lra).
  exists (((1069.9 - (0.999 - 0.451) * 50) * ratio (p_w 45) - 0.240 * (65 - 50)) / b),
         (((1069.9 - (0.999 - 0.451) * 50) * ratio (p_w 50) - 0.240 * (65 - 50)) / b).
  split; [| split].
  - rewrite (W1_bound notebook _ _ (Quantity 45 degF) (ratio (p_w 45)));
      [| reflexivity | exact H45].
    simpl m. fold b. rewrite div_Ok by lra. reflexivity.
  - unfold estimate_humidity_ratio_constant_cp,
      Spec.estimate_humidity_ratio_constant_cp, saturated_humidity_ratio.
    rewrite H50. simpl bind. cbv zeta. fold b. rewrite div_Ok by lra.
    reflexivity.
  - unfold Rdiv. apply Rmult_lt_compat_r; [apply Rinv_0_lt_compat; exact Hb |].
    nra.
Qed.

End ConstantCp.

(** ** [W_sat] at and above atmospheric pressure *)

Section PhysicalLimit.

(** 300 F is 422.04 K; the water correlation is above 14.696 psi there. *)
Lemma ln_P_w_300 : 12 < ln_P_w (kelvin_of_degF 300).
Proof.
  unfold ln_P_w. set (T := kelvin_of_degF 300).
  assert (HT : 422.03 < T < 422.04) by (unfold T, kelvin_of_degF; lra).
  pose proof (ln_above_6 T ltac:(lra)) as Hln.
  assert (H0 : -13.75 < -5.8002206e03 / T).
  { apply Rmult_lt_reg_r with T; [lra |].
    unfold Rdiv. rewrite Rmult_assoc, Rinv_l by lra. nra. }
  assert (H2 : 178109 < T ^ 2 < 178118) by nra.
  assert (H3 : T ^ 3 < 75180000).
  { replace (T ^ 3) with (T * T ^ 2) by ring. nra. }
  lra.
Qed.

Lemma p_w_300 : 22 < p_w 300.
Proof.
  pose proof ln_P_w_300 as H. apply exp_increasing in H.
  pose proof exp_12_lower. pose proof factor_psi_bounds.
  unfold p_w. set (P := exp (ln_P_w (kelvin_of_degF 300))) in *.
  apply Rmult_lt_reg_r with (factor psi); [lra |].
  unfold Rdiv. rewrite Rmult_assoc, Rinv_l by lra. nra.
Qed.

Lemma P_v_sat_300 : P_v_sat (Quantity 300 degF) = Ok (Quantity (p_w 300) psi).
Proof.
  rewrite P_v_sat_water by (simpl; lra).
  apply P_w_sat_degF. unfold kelvin_of_degF. lra.
Qed.

Lemma W_sat_Raise (T_db : qty) (e : exn) :
  W_sat T_db = Raise e ->
  P_v_sat T_db = Raise e \/ e = ZeroDivisionError.
Proof.
  unfold W_sat. destruct (P_v_sat T_db) as [Pws | e']; simpl.
  - unfold div. destruct (Req_EM_T _ 0); [| discriminate].
    intros [= <-]. right. reflexivity.
  - intros [= <-]. left. reflexivity.
Qed.

(** C7, as the code has it: no function raises [PhysicalLimitExceeded].
    With the saturation pressure [Pws] at or above 14.696 psi, [W_sat]
    raises [ZeroDivisionError] when [Pws] is exactly 14.696 and otherwise
    returns [0.62198 Pws / (14.696 - Pws)], a negative humidity ratio. *)
Theorem W_sat_beyond_atmospheric (T_db Pws : qty) :
  P_v_sat T_db = Ok Pws ->
  14.696 <= m Pws ->
  (m Pws = 14.696 -> W_sat T_db = Raise ZeroDivisionError) /\
  (14.696 < m Pws ->
     W_sat T_db = Ok (Quantity (0.62198 * m Pws / (14.696 - m Pws)) lb_per_lb)
     /\ 0.62198 * m Pws / (14.696 - m Pws) < 0) /\
  W_sat T_db <> Raise PhysicalLimitExceeded.
Proof.
  intros HP Hge. split; [| split].
  - intros E. unfold W_sat. rewrite HP. simpl. rewrite E.
    replace (14.696 - 14.696) with 0 by lra. rewrite div_zero. reflexivity.
  - intros Hgt. split.
    + apply W_sat_formula; [exact HP | lra].
    + apply Ropp_lt_cancel. rewrite Ropp_0.
      replace (- (0.62198 * m Pws / (14.696 - m Pws)))
        with (0.62198 * m Pws / (m Pws - 14.696)) by (field; lra).
      apply Rdiv_lt_0_compat; lra.
  - intros H. apply W_sat_Raise in H as [H | H]; [| discriminate].
    rewrite HP in H. discriminate.
Qed.

Lemma W_sat_beyond_atmospheric_witness :
  (p_w 300 = 14.696 -> W_sat (Quantity 300 degF) = Raise ZeroDivisionError) /\
  (14.696 < p_w 300 ->
     W_sat (Quantity 300 degF)
       = Ok (Quantity (0.62198 * p_w 300 / (14.696 - p_w 300)) lb_per_lb)
     /\ 0.62198 * p_w 300 / (14.696 - p_w 300) < 0) /\
  W_sat (Quantity 300 degF) <> Raise PhysicalLimitExceeded.
Proof.
  apply (W_sat_beyond_atmospheric (Quantity 300 degF) (Quantity (p_w 300) psi)).
  - exact P_v_sat_300.
  - simpl. pose proof p_w_300. lra.
Defined.

(** C7 as stated fails at 300 F: the saturation pressure is above
    14.696 psi and [W_sat] returns a negative humidity ratio. *)
Lemma W_sat_300_negative :
  exists Pws w : qty,
    P_v_sat (Quantity 300 degF) = Ok Pws /\
    14.696 <= m Pws /\
    W_sat (Quantity 300 degF) = Ok w /\
    m w < 0.
Proof.
  pose proof p_w_300 as Hp.
  exists (Quantity (p_w 300) psi),
         (Quantity (0.62198 * p_w 300 / (14.696 - p_w 300)) lb_per_lb).
  split; [exact P_v_sat_300 |]. split; [simpl; lra |]. split.
  - apply (W_sat_formula _ (Quantity (p_w 300) psi) P_v_sat_300). simpl. lra.
  - simpl. apply Ropp_lt_cancel. rewrite Ropp_0.
    replace (- (0.62198 * p_w 300 / (14.696 - p_w 300)))
      with (0.62198 * p_w 300 / (p_w 300 - 14.696)) by (field; lra).
    apply Rdiv_lt_0_compat; lra.
Qed.

End PhysicalLimit.

(** ** A run that never leaves the loop: 5 F at saturation *)

Section ColdSaturated.

(** [exp 5.55 < 258.15 < exp 5.557], by fifteen squarings from
    [1 + y <= exp y <= / (1 - y)] at [y = x / 2^15]. *)
Lemma exp_5_55_upper : exp 5.55 < 258.15.
Proof.
  assert (H0 : exp (5.55 / 32768) <= 1.000169401251).
  { pose proof (exp_upper_small (5.55 / 32768) ltac:(lra)) as H.
    assert (/ (1 - 5.55 / 32768) <= 1.000169401251); [| lra].
    apply Rmult_le_reg_r with (1 - 5.55 / 32768); [lra |].
    rewrite Rinv_l by lra. lra. }
  pose proof (exp_double_upper _ _ 1.000338831199 H0 ltac:(lra)) as H1.
  pose proof (exp_double_upper _ _ 1.000677777205 H1 ltac:(lra)) as H2.
  pose proof (exp_double_upper _ _ 1.001356013792 H2 ltac:(lra)) as H3.
  pose proof (exp_double_upper _ _ 1.002713866358 H3 ltac:(lra)) as H4.
  pose proof (exp_double_upper _ _ 1.005435097787 H4 ltac:(lra)) as H5.
  pose proof (exp_double_upper _ _ 1.010899735862 H5 ltac:(lra)) as H6.
  pose proof (exp_double_upper _ _ 1.021918275966 H6 ltac:(lra)) as H7.
  pose proof (exp_double_upper _ _ 1.044316962754 H7 ltac:(lra)) as H8.
  pose proof (exp_double_upper _ _ 1.090597918696 H8 ltac:(lra)) as H9.
  pose proof (exp_double_upper _ _ 1.189403820265 H9 ltac:(lra)) as H10.
  pose proof (exp_double_upper _ _ 1.414681447661 H10 ltac:(lra)) as H11.
  pose proof (exp_double_upper _ _ 2.001323598357 H11 ltac:(lra)) as H12.
  pose proof (exp_double_upper _ _ 4.005296145341 H12 ltac:(lra)) as H13.
  pose proof (exp_double_upper _ _ 16.042397211884 H13 ltac:(lra)) as H14.
  pose proof (exp_double_upper _ _ 257.358508303864 H14 ltac:(lra)) as H15.
  replace (2 * (2 * (2 * (2 * (2 * (2 * (2 * (2 * (2 * (2 * (2 * (2 * (2 * (2 * (2 * (5.55 / 32768))))))))))))))))
    with 5.55 in H15 by lra.
  lra.
Qed.

Lemma exp_5_557_lower : 258.15 < exp 5.557.
Proof.
  assert (H0 : 1 + 5.557 / 32768 <= exp (5.557 / 32768)) by apply exp_ineq1_le.
  pose proof (exp_double_lower _ _ 1.000339201122 H0 ltac:(lra) ltac:(lra)) as H1.
  pose proof (exp_double_lower _ _ 1.000678517301 H1 ltac:(lra) ltac:(lra)) as H2.
  pose proof (exp_double_lower _ _ 1.001357494987 H2 ltac:(lra) ltac:(lra)) as H3.
  pose proof (exp_double_lower _ _ 1.002716832766 H3 ltac:(lra) ltac:(lra)) as H4.
  pose proof (exp_double_lower _ _ 1.005441046712 H4 ltac:(lra) ltac:(lra)) as H5.
  pose proof (exp_double_lower _ _ 1.010911698413 H5 ltac:(lra) ltac:(lra)) as H6.
  pose proof (exp_double_lower _ _ 1.021942461988 H6 ltac:(lra) ltac:(lra)) as H7.
  pose proof (exp_double_lower _ _ 1.044366395614 H7 ltac:(lra) ltac:(lra)) as H8.
  pose proof (exp_double_lower _ _ 1.090701168287 H8 ltac:(lra) ltac:(lra)) as H9.
  pose proof (exp_double_lower _ _ 1.189629038502 H9 ltac:(lra) ltac:(lra)) as H10.
  pose proof (exp_double_lower _ _ 1.415217249247 H10 ltac:(lra) ltac:(lra)) as H11.
  pose proof (exp_double_lower _ _ 2.002839862566 H11 ltac:(lra) ltac:(lra)) as H12.
  pose proof (exp_double_lower _ _ 4.011367515083 H12 ltac:(lra) ltac:(lra)) as H13.
  pose proof (exp_double_lower _ _ 16.091069341063 H13 ltac:(lra) ltac:(lra)) as H14.
  pose proof (exp_double_lower _ _ 258.922512538897 H14 ltac:(lra) ltac:(lra)) as H15.
  replace (2 * (2 * (2 * (2 * (2 * (2 * (2 * (2 * (2 * (2 * (2 * (2 * (2 * (2 * (2 * (5.557 / 32768))))))))))))))))
    with 5.557 in H15 by lra.
  lra.
Qed.

Lemma ln_258_15 : 5.55 < ln 258.15 < 5.557.
Proof.
  pose proof exp_5_55_upper. pose proof exp_5_557_lower.
  split; apply exp_lt_inv; rewrite exp_ln by lra; lra.
Qed.

Lemma kelvin_of_degF_5 : kelvin_of_degF 5 = 258.15.
Proof. unfold kelvin_of_degF. lra. Qed.

Lemma ln_P_w_5 : 5.22 < ln_P_w (kelvin_of_degF 5) < 6.
Proof.
  rewrite kelvin_of_degF_5. pose proof ln_258_15. unfold ln_P_w. lra.
Qed.

(** From 0 F to 5 F the ice correlation stays below exp 5.16 pascal. *)
Lemma ln_P_ice_cold (T : R) : 255.37 <= T <= 258.15 -> ln_P_ice T < 5.16.
Proof.
  intros HT. unfold ln_P_ice.
  assert (Hln : ln T < 5.557).
  { destruct (Req_dec T 258.15) as [-> | Hne]; [apply ln_258_15 |].
    pose proof (ln_increasing T 258.15 ltac:(lra) ltac:(lra)).
    pose proof ln_258_15. lra. }
  assert (H0 : -5.6745359e03 / T <= -21.98).
  { apply Rmult_le_reg_r with T; [lra |].
    unfold Rdiv. rewrite Rmult_assoc, Rinv_l by lra. lra. }
  assert (H2 : 65213 <= T ^ 2 <= 66642) by nra.
  assert (H3 : T ^ 3 <= 17204000).
  { replace (T ^ 3) with (T * T ^ 2) by ring. nra. }
  assert (H4 : 4252700000 <= T ^ 4).
  { replace (T ^ 4) with (T ^ 2 * T ^ 2) by ring. nra. }
  lra.
Qed.

Lemma ratio_gap (p1 p2 d : R) :
  0 <= p1 -> 0 <= d -> p1 + d <= p2 -> p2 < 14.696 ->
  ratio p1 + 0.04 * d <= ratio p2.
Proof.
  intros H1 Hd H12 H2. unfold ratio.
  apply Rmult_le_reg_r with ((14.696 - p1) * (14.696 - p2)); [nra |].
  replace ((0.62198 * p1 / (14.696 - p1) + 0.04 * d)
           * ((14.696 - p1) * (14.696 - p2)))
    with (0.62198 * p1 * (14.696 - p2)
          + 0.04 * d * ((14.696 - p1) * (14.696 - p2))) by (field; lra).
  replace (0.62198 * p2 / (14.696 - p2) * ((14.696 - p1) * (14.696 - p2)))
    with (0.62198 * p2 * (14.696 - p1)) by (field; lra).
  assert ((14.696 - p1) * (14.696 - p2) <= 14.696 * 14.696) by nra.
  assert (0 <= d * (14.696 * 14.696 - (14.696 - p1) * (14.696 - p2))) by nra.
  nra.
Qed.

Lemma ratio_nonneg (p : R) : 0 <= p -> p < 14.696 -> 0 <= ratio p.
Proof.
  intros H0 H1. unfold ratio. apply Rmult_le_pos; [lra |].
  left. apply Rinv_0_lt_compat. lra.
Qed.

(** Pressures of the example, in psi. *)
Lemma cold_pressures (t : R) :
  0 <= t <= 5 ->
  0 < p_ice t /\ p_ice t + 0.001 <= p_w 5 /\ 0.02 < p_w 5 < 0.07.
Proof.
  intros Ht. unfold p_ice, p_w.
  pose proof (ln_P_ice_cold (kelvin_of_degF t)
                ltac:(unfold kelvin_of_degF; lra)) as Hi.
  pose proof ln_P_w_5 as [Hw1 Hw2].
  apply exp_increasing in Hi, Hw1, Hw2.
  replace 5.22 with (5.16 + 0.06) in Hw1 by lra. rewrite exp_plus in Hw1.
  pose proof (exp_ineq1_le 0.06) as H06.
  pose proof exp_6_bounds as H6.
  assert (H5 : 146 < exp 5.16).
  { assert (exp 5 < exp 5.16) by (apply exp_increasing; lra).
    assert (E5 : exp 5 = exp 1 ^ 5).
    { replace 5 with (INR 5) by (simpl; lra). apply exp_INR. }
    pose proof exp_1_lower.
    assert (2.71 ^ 5 <= exp 1 ^ 5) by (apply pow_incr; lra).
    lra. }
  pose proof factor_psi_bounds as Hf.
  pose proof (exp_pos (ln_P_ice (kelvin_of_degF t))) as Hpi.
  set (Pi := exp (ln_P_ice (kelvin_of_degF t))) in *.
  set (Pw := exp (ln_P_w (kelvin_of_degF 5))) in *.
  set (E := exp 5.16) in *.
  assert (HPw : Pi + 8 < Pw) by nra.
  assert (Hinv : 0 < / factor psi) by (apply Rinv_0_lt_compat; lra).
  assert (Hone : factor psi * / factor psi = 1) by (apply Rinv_r; lra).
  unfold Rdiv. repeat split; nra.
Qed.



Lemma cold_target (u : unit_name) :
  W (Quantity 5 degF) (Quantity 1 u) = Ok (Quantity (ratio (p_w 5)) lb_per_lb)
  /\ 0.0008 < ratio (p_w 5).
Proof.
  destruct (cold_pressures 5 ltac:(lra)) as (_ & _ & Hpw). split.
  - rewrite (W_formula _ _ (Quantity (p_w 5) psi)).
    + simpl m. unfold ratio. rewrite Rmult_1_r. reflexivity.
    + apply P_w_sat_degF. unfold kelvin_of_degF. lra.
    + simpl. lra.
  - unfold ratio. apply Rmult_lt_reg_r with (14.696 - p_w 5); [lra |].
    unfold Rdiv. rewrite Rmult_assoc, Rinv_l by lra. nra.
Qed.



End ColdSaturated.

(** ** What the solver can raise *)

Section Exceptions.




















End Exceptions.

(** ** No iteration cap *)

Section NoCap.






End NoCap.

(** ** [W_sat] over the domain of the correlations *)

Section Domain.

(** [exp 5.92 > 366.49] and [exp 11.4 < 100000], by thirteen squarings. *)
Lemma exp_5_92_lower : 366.49 < exp 5.92.
Proof.
  assert (H0 : 1 + 5.92 / 8192 <= exp (5.92 / 8192)) by apply exp_ineq1_le.
  pose proof (exp_double_lower _ _ 1.001445834732 H0 ltac:(lra) ltac:(lra)) as H1.
  pose proof (exp_double_lower _ _ 1.002893759902 H1 ltac:(lra) ltac:(lra)) as H2.
  pose proof (exp_double_lower _ _ 1.005795893650 H2 ltac:(lra) ltac:(lra)) as H3.
  pose proof (exp_double_lower _ _ 1.011625379683 H3 ltac:(lra) ltac:(lra)) as H4.
  pose proof (exp_double_lower _ _ 1.023385908818 H4 ltac:(lra) ltac:(lra)) as H5.
  pose proof (exp_double_lower _ _ 1.047318718367 H5 ltac:(lra) ltac:(lra)) as H6.
  pose proof (exp_double_lower _ _ 1.096876497841 H6 ltac:(lra) ltac:(lra)) as H7.
  pose proof (exp_double_lower _ _ 1.203138051515 H7 ltac:(lra) ltac:(lra)) as H8.
  pose proof (exp_double_lower _ _ 1.447541171003 H8 ltac:(lra) ltac:(lra)) as H9.
  pose proof (exp_double_lower _ _ 2.095375441748 H9 ltac:(lra) ltac:(lra)) as H10.
  pose proof (exp_double_lower _ _ 4.390598241880 H10 ltac:(lra) ltac:(lra)) as H11.
  pose proof (exp_double_lower _ _ 19.277352921599 H11 ltac:(lra) ltac:(lra)) as H12.
  pose proof (exp_double_lower _ _ 371.616335663881 H12 ltac:(lra) ltac:(lra)) as H13.
  replace (2 * (2 * (2 * (2 * (2 * (2 * (2 * (2 * (2 * (2 * (2 * (2 * (2 * (5.92 / 8192))))))))))))))
    with 5.92 in H13 by lra.
  lra.
Qed.

Lemma exp_11_4_upper : exp 11.4 < 100000.
Proof.
  assert (H0 : exp (11.4 / 8192) <= 1.001393540817).
  { pose proof (exp_upper_small (11.4 / 8192) ltac:(lra)) as H.
    assert (/ (1 - 11.4 / 8192) <= 1.001393540817); [| lra].
    apply Rmult_le_reg_r with (1 - 11.4 / 8192); [lra |].
    rewrite Rinv_l by lra. lra. }
  pose proof (exp_double_upper _ _ 1.002789023591 H0 ltac:(lra)) as H1.
  pose proof (exp_double_upper _ _ 1.005585825835 H1 ltac:(lra)) as H2.
  pose proof (exp_double_upper _ _ 1.011202853121 H2 ltac:(lra)) as H3.
  pose proof (exp_double_upper _ _ 1.022531210161 H3 ltac:(lra)) as H4.
  pose proof (exp_double_upper _ _ 1.045570075754 H4 ltac:(lra)) as H5.
  pose proof (exp_double_upper _ _ 1.093216783313 H5 ltac:(lra)) as H6.
  pose proof (exp_double_upper _ _ 1.195122935318 H6 ltac:(lra)) as H7.
  pose proof (exp_double_upper _ _ 1.428318830524 H7 ltac:(lra)) as H8.
  pose proof (exp_double_upper _ _ 2.040094681630 H8 ltac:(lra)) as H9.
  pose proof (exp_double_upper _ _ 4.161986310016 H9 ltac:(lra)) as H10.
  pose proof (exp_double_upper _ _ 17.322130044761 H10 ltac:(lra)) as H11.
  pose proof (exp_double_upper _ _ 300.056189287612 H11 ltac:(lra)) as H12.
  pose proof (exp_double_upper _ _ 90033.716729803243 H12 ltac:(lra)) as H13.
  replace (2 * (2 * (2 * (2 * (2 * (2 * (2 * (2 * (2 * (2 * (2 * (2 * (2 * (11.4 / 8192))))))))))))))
    with 11.4 in H13 by lra.
  lra.
Qed.

(** 200 F is 366.48 K; the water correlation is below 14.696 psi there. *)
Lemma ln_P_w_200 : ln_P_w (kelvin_of_degF 200) < 11.4.
Proof.
  unfold ln_P_w. set (T := kelvin_of_degF 200).
  assert (HT : 366.48 < T < 366.49) by (unfold T, kelvin_of_degF; lra).
  assert (Hln : ln T < 5.92).
  { pose proof exp_5_92_lower.
    apply exp_lt_inv. rewrite exp_ln by lra. lra. }
  assert (H0 : -5.8002206e03 / T < -15.826).
  { apply Rmult_lt_reg_r with T; [lra |].
    unfold Rdiv. rewrite Rmult_assoc, Rinv_l by lra. nra. }
  assert (H2 : 134307 < T ^ 2 < 134315) by nra.
  assert (H3 : 49220000 < T ^ 3).
  { replace (T ^ 3) with (T * T ^ 2) by ring. nra. }
  lra.
Qed.

Lemma p_w_200 : p_w 200 < 14.6.
Proof.
  pose proof ln_P_w_200 as H. apply exp_increasing in H.
  pose proof exp_11_4_upper. pose proof factor_psi_bounds.
  unfold p_w. set (P := exp (ln_P_w (kelvin_of_degF 200))) in *.
  apply Rmult_lt_reg_r with (factor psi); [lra |].
  unfold Rdiv. rewrite Rmult_assoc, Rinv_l by lra. nra.
Qed.

Lemma p_w_below_boiling (t : R) : 0 <= t <= 200 -> 0 < p_w t < 14.6.
Proof.
  intros Ht. split; [apply p_w_pos |].
  destruct (Req_dec t 200) as [-> | Hne]; [apply p_w_200 |].
  pose proof (p_w_increasing t 200 ltac:(lra) ltac:(lra) ltac:(lra)).
  pose proof p_w_200. lra.
Qed.

(** From -148 F to 32 F the ice correlation stays below exp 10 pascal. *)
Lemma ln_P_ice_freezing (T : R) : 173.15 <= T <= 273.15 -> ln_P_ice T < 10.
Proof.
  intros HT. unfold ln_P_ice.
  pose proof (ln_5_6 T ltac:(lra)) as Hln.
  assert (H0 : -5.6745359e03 / T <= -20.77).
  { apply Rmult_le_reg_r with T; [lra |].
    unfold Rdiv. rewrite Rmult_assoc, Rinv_l by lra. lra. }
  assert (H2 : 0 <= T ^ 2 <= 74612) by nra.
  assert (H3 : T ^ 3 <= 20381000).
  { replace (T ^ 3) with (T * T ^ 2) by ring. nra. }
  assert (H4 : 0 <= T ^ 4).
  { replace (T ^ 4) with (T ^ 2 * T ^ 2) by ring. nra. }
  lra.
Qed.

Lemma p_ice_pos (t : R) : 0 < p_ice t.
Proof.
  unfold p_ice. apply Rdiv_lt_0_compat; [apply exp_pos | apply factor_psi_pos].
Qed.

Lemma p_ice_freezing (t : R) : -148 <= t <= 32 -> 0 < p_ice t < 4.
Proof.
  intros Ht. split; [apply p_ice_pos |].
  pose proof (ln_P_ice_freezing (kelvin_of_degF t)
                ltac:(unfold kelvin_of_degF; lra)) as H.
  apply exp_increasing in H.
  pose proof exp_10_upper. pose proof factor_psi_bounds.
  unfold p_ice. set (P := exp (ln_P_ice (kelvin_of_degF t))) in *.
  apply Rmult_lt_reg_r with (factor psi); [lra |].
  unfold Rdiv. rewrite Rmult_assoc, Rinv_l by lra. nra.
Qed.

Lemma ratio_pos (p : R) : 0 < p -> p < 14.696 -> 0 < ratio p.
Proof.
  intros H0 H1. unfold ratio. apply Rdiv_lt_0_compat; lra.
Qed.

Lemma W_sat_ice_degF (t : R) :
  -459 <= t -> t < 32 -> p_ice t <> 14.696 ->
  W_sat (Quantity t degF) = Ok (Quantity (ratio (p_ice t)) lb_per_lb).
Proof.
  intros Ht Ht' Hp.
  rewrite (W_sat_formula _ (Quantity (p_ice t) psi)).
  - reflexivity.
  - rewrite P_v_sat_ice by (simpl; lra).
    apply P_ice_sat_degF. unfold kelvin_of_degF. lra.
  - simpl. lra.
Qed.

(** From -148 F to 5 F the water correlation stays below exp 10 pascal. *)
Lemma ln_P_w_cold (T : R) : 173.15 <= T <= 258.15 -> ln_P_w T < 10.
Proof.
  intros HT. unfold ln_P_w.
  assert (Hln : ln T < 5.557).
  { destruct (Req_dec T 258.15) as [-> | Hne]; [apply ln_258_15 |].
    pose proof (ln_increasing T 258.15 ltac:(lra) ltac:(lra)).
    pose proof ln_258_15. lra. }
  assert (H0 : -5.8002206e03 / T <= -22.46).
  { apply Rmult_le_reg_r with T; [lra |].
    unfold Rdiv. rewrite Rmult_assoc, Rinv_l by lra. lra. }
  assert (H2 : 0 <= T ^ 2 <= 66642) by nra.
  assert (H3 : 0 <= T ^ 3).
  { replace (T ^ 3) with (T * T ^ 2) by ring. nra. }
  lra.
Qed.

Lemma p_w_domain (t : R) : -148 <= t <= 200 -> 0 < p_w t < 14.6.
Proof.
  intros Ht. destruct (Rle_dec 0 t) as [H0 | H0].
  - apply p_w_below_boiling. lra.
  - split; [apply p_w_pos |].
    pose proof (ln_P_w_cold (kelvin_of_degF t)
                  ltac:(unfold kelvin_of_degF; lra)) as H.
    apply exp_increasing in H.
    pose proof exp_10_upper. pose proof factor_psi_bounds.
    unfold p_w. set (P := exp (ln_P_w (kelvin_of_degF t))) in *.
    apply Rmult_lt_reg_r with (factor psi); [lra |].
    unfold Rdiv. rewrite Rmult_assoc, Rinv_l by lra. nra.
Qed.

(** From -148 F to 200 F and for a relative humidity in [[0,1]], [W]
    returns, and returns a ratio that is not negative. *)
Lemma W_defined (t rh : R) (u : unit_name) :
  -148 <= t <= 200 -> 0 <= rh <= 1 ->
  W (Quantity t degF) (Quantity rh u)
    = Ok (Quantity (ratio (p_w t * rh)) lb_per_lb)
  /\ 0 <= ratio (p_w t * rh).
Proof.
  intros Ht Hrh. pose proof (p_w_domain t Ht) as Hp.
  assert (Hprod : 0 <= p_w t * rh < 14.6) by nra.
  split.
  - rewrite (W_formula _ _ (Quantity (p_w t) psi)).
    + reflexivity.
    + apply P_w_sat_degF. unfold kelvin_of_degF. lra.
    + simpl. lra.
  - apply ratio_nonneg; lra.
Qed.




End Domain.

(** ** The water branch below freezing *)

Section BelowFreezing.

Lemma W_water_branch_always_witness :
  W (Quantity 5 degF) (Quantity 1 percent) =
    Ok (Quantity (0.62198 * (p_w 5 * 1) / (14.696 - p_w 5 * 1)) lb_per_lb)
  /\ (forall Pis : qty,
        5 < 32 ->
        P_ice_sat (Quantity 5 degF) = Ok Pis ->
        14.696 - m Pis <> 0 ->
        W_sat (Quantity 5 degF) =
          Ok (Quantity (0.62198 * m Pis / (14.696 - m Pis)) lb_per_lb)).
Proof.
  apply (W_water_branch_always 5 1 percent (Quantity (p_w 5) psi)).
  - lra.
  - apply P_w_sat_degF. unfold kelvin_of_degF. lra.
  - destruct (cold_pressures 5 ltac:(lra)) as (_ & _ & Hp). simpl. lra.
Defined.

End BelowFreezing.

(** ** Two runs of the notebook's functions *)

Section Runs.

(** At 5 F the two humidity ratios differ: [W] at [RH = 1] is computed
    from the pressure over water, [W_sat] from the pressure over ice. *)
Lemma W_above_W_sat_at_5 :
  exists w ws : R,
    W (Quantity 5 degF) (Quantity 1 percent) = Ok (Quantity w lb_per_lb) /\
    W_sat (Quantity 5 degF) = Ok (Quantity ws lb_per_lb) /\
    ws < w.
Proof.
  destruct (cold_target percent) as [HW _].
  destruct (cold_pressures 5 ltac:(lra)) as (Hpi & Hgap & Hpw).
  exists (ratio (p_w 5)), (ratio (p_ice 5)). split; [exact HW |]. split.
  - apply W_sat_ice_degF; lra.
  - pose proof (ratio_gap (p_ice 5) (p_w 5) 0.001
                  ltac:(lra) ltac:(lra) Hgap ltac:(lra)).
    lra.
Qed.


End Runs.

(** * Further properties of the notebook's functions *)

(** ** Edges of the saturation pressures *)

Section PressureEdges.







End PressureEdges.

(** ** Bounds of the specific heats *)

Section HeatBounds.

Lemma Btu_of_kJ_lower (x lo : R) :
  0 <= lo -> lo <= x -> 0.2388 * lo <= Btu_of_kJ x.
Proof.
  intros H0 Hx. rewrite Btu_of_kJ_scale. pose proof Btu_of_kJ_1. nra.
Qed.


End HeatBounds.

(** ** The dry-air specific heat *)

Section DryAir.

Lemma Cp_dry_air_symmetric (T_db T_wb : qty) :
  Cp_dry_air T_db T_wb = Cp_dry_air T_wb T_db.
Proof.
  unfold Cp_dry_air, to.
  destruct (dimension_eqb (dim (units T_wb)) (dim degC)),
           (dimension_eqb (dim (units T_db)) (dim degC));
    simpl; try reflexivity.
  do 2 f_equal. lra.
Qed.

(** X3: [Cp_dry_air] does not tell its two arguments apart: swapping the
    dry and the wet bulb gives the same result, a raised exception
    included; and for two Fahrenheit temperatures at or above absolute
    zero it returns at least 0.235 Btu/(lb F). *)
Theorem Cp_dry_air_symmetric_positive :
  (forall T_db T_wb : qty, Cp_dry_air T_db T_wb = Cp_dry_air T_wb T_db) /\
  (forall t_db t_wb : R,
     -459.67 <= t_db -> -459.67 <= t_wb ->
     exists c : R,
       Cp_dry_air (Quantity t_db degF) (Quantity t_wb degF)
         = Ok (Quantity c Btu_per_lb_degF) /\
       0.235 <= c).
Proof.
  split; [exact Cp_dry_air_symmetric |].
  intros t_db t_wb Hdb Hwb. exists (cp_da t_db t_wb).
  split; [apply Cp_dry_air_degF |].
  assert (0.2388 * 0.985 <= cp_da t_db t_wb); [| lra].
  unfold cp_da. apply Btu_of_kJ_lower; [lra |].
  unfold celsius_of_degF. lra.
Qed.

End DryAir.

(** ** The unit of the argument *)

Section Units.



Lemma to_kelvin_of_degC (t : R) :
  to kelvin (Quantity (celsius_of_degF t) degC) = to kelvin (Quantity t degF).
Proof. unfold to, celsius_of_degF; simpl. do 2 f_equal. lra. Qed.

Lemma to_kelvin_of_kelvin (t : R) :
  to kelvin (Quantity (kelvin_of_degF t) kelvin) = to kelvin (Quantity t degF).
Proof. unfold to, kelvin_of_degF; simpl. do 2 f_equal. lra. Qed.


End Units.

(** ** [W] as a function of the relative humidity *)

Section RelativeHumidity.



End RelativeHumidity.

(** ** The estimate under a wet-bulb depression *)

Section Depression.

(** Specific heats between -148 F and 200 F. *)
Lemma domain_heats (t_db t_wb : R) :
  -148 <= t_db <= 200 -> -148 <= t_wb <= 200 ->
  0.99 < cp_w t_wb < 1.12 /\ 0.44 < cp_v t_db < 0.46
  /\ 0.23 < cp_da t_db t_wb < 0.25.
Proof.
  intros Hdb Hwb. unfold cp_w, cp_v, cp_da.
  rewrite !(Btu_of_kJ_scale (_ * 1e-3)).
  pose proof Btu_of_kJ_1 as Hk. set (k := Btu_of_kJ 1) in *.
  assert (Hc : -100 <= celsius_of_degF t_wb <= 94)
    by (unfold celsius_of_degF; lra).
  assert (Hd : -100 <= celsius_of_degF t_db <= 94)
    by (unfold celsius_of_degF; lra).
  generalize dependent (celsius_of_degF t_wb). intros c Hc.
  generalize dependent (celsius_of_degF t_db). intros d Hd.
  assert (Hc2 : 0 <= c ^ 2 <= 10000) by nra.
  assert (Hd2 : 0 <= d ^ 2 <= 10000) by nra.
  pose proof (pow2_ge_0 (0.053 * c - 1.7688)) as Sc.
  pose proof (pow2_ge_0 (0.0032 * d + 0.1546)) as Sd.
  assert (Pw : 4.176 <= (0.0265 * c ^ 2 - 1.7688 * c + 4205.6) * 1e-3 <= 4.65)
    by nra.
  assert (Pv : 1.8549 <= (0.0016 * d ^ 2 + 0.1546 * d + 1858.7) * 1e-3 <= 1.89)
    by nra.
  assert (Pa : 0.998 <= (0.0667 * (d + c) / 2 + 1005) * 1e-3 <= 1.012)
    by lra.
  repeat split; nra.
Qed.




End Depression.

(** ** The solver at saturation, from 32 F up *)

Section Saturation.




End Saturation.

(** ** The ice correlation against the water correlation *)

Section IceAndWater.

Lemma ln_diff_upper (x y : R) : 0 < x -> 0 < y -> ln y - ln x <= y / x - 1.
Proof. intros Hx Hy. pose proof (ln_diff_lower y x Hy Hx). lra. Qed.

(** Between 173.15 K and 273.15 K (-148 F to 32 F) the exponent of the ice
    correlation grows by at least 0.08 per kelvin. *)
Lemma ln_P_ice_slope (T1 T2 : R) :
  173.15 <= T1 -> T1 <= T2 -> T2 <= 273.15 ->
  0.08 * (T2 - T1) <= ln_P_ice T2 - ln_P_ice T1.
Proof.
  intros H1 H12 H2.
  set (d := T2 - T1). assert (Hd : 0 <= d) by (unfold d; lra).
  assert (Hi1 : / 273.15 <= / T1) by (apply Rinv_le_contravar; lra).
  assert (Hi2 : / 273.15 <= / T2) by (apply Rinv_le_contravar; lra).
  assert (Hi : 0.00366 < / 273.15).
  { apply Rmult_lt_reg_r with 273.15; [lra |]. rewrite Rinv_l by lra. lra. }
  assert (A0 : 0.076 * d <= -5.6745359e03 / T2 - -5.6745359e03 / T1).
  { replace (-5.6745359e03 / T2 - -5.6745359e03 / T1)
      with (5674.5359 * (/ T1 - / T2)) by (unfold Rdiv; lra).
    rewrite Rinv_diff by lra. fold d.
    assert (0.00366 * 0.00366 <= / T1 * / T2) by (apply Rmult_le_compat; lra).
    nra. }
  assert (A3 : 0 <= 6.2215701e-07 * T2 ^ 2 - 6.2215701e-07 * T1 ^ 2).
  { replace (6.2215701e-07 * T2 ^ 2 - 6.2215701e-07 * T1 ^ 2)
      with (6.2215701e-07 * (d * (T1 + T2))) by (unfold d; ring).
    assert (0 <= d * (T1 + T2)) by (apply Rmult_le_pos; lra). lra. }
  assert (A4 : 0 <= 2.0747825e-09 * T2 ^ 3 - 2.0747825e-09 * T1 ^ 3).
  { replace (2.0747825e-09 * T2 ^ 3 - 2.0747825e-09 * T1 ^ 3)
      with (2.0747825e-09 * (d * (T1 * T1 + T1 * T2 + T2 * T2)))
      by (unfold d; ring).
    assert (0 <= T1 * T1 + T1 * T2 + T2 * T2) by nra.
    assert (0 <= d * (T1 * T1 + T1 * T2 + T2 * T2))
      by (apply Rmult_le_pos; lra).
    lra. }
  assert (A5 : -0.0001 * d
               <= -9.4840240e-13 * T2 ^ 4 - -9.4840240e-13 * T1 ^ 4).
  { replace (-9.4840240e-13 * T2 ^ 4 - -9.4840240e-13 * T1 ^ 4)
      with (-9.4840240e-13 * (d * ((T1 + T2) * (T1 * T1 + T2 * T2))))
      by (unfold d; ring).
    assert (0 <= T1 * T1 + T2 * T2 <= 2 * (273.15 * 273.15)) by nra.
    assert ((T1 + T2) * (T1 * T1 + T2 * T2)
            <= (2 * 273.15) * (2 * (273.15 * 273.15)))
      by (apply Rmult_le_compat; lra).
    assert (d * ((T1 + T2) * (T1 * T1 + T2 * T2))
            <= d * ((2 * 273.15) * (2 * (273.15 * 273.15))))
      by (apply Rmult_le_compat_l; lra).
    lra. }
  assert (A6 : 0.0152 * d <= 4.1635019e0 * ln T2 - 4.1635019e0 * ln T1).
  { pose proof (ln_diff_lower T1 T2 ltac:(lra) ltac:(lra)) as H.
    replace (1 - T1 / T2) with (d * / T2) in H by (unfold d; field; lra).
    assert (d * 0.00366 <= d * / T2) by (apply Rmult_le_compat_l; lra).
    lra. }
  unfold ln_P_ice. unfold d in *. lra.
Qed.

Lemma p_ice_increasing (t1 t2 : R) :
  -148 <= t1 -> t1 < t2 -> t2 <= 32 -> p_ice t1 < p_ice t2.
Proof.
  intros H1 H12 H2. unfold p_ice, Rdiv. apply Rmult_lt_compat_r.
  - apply Rinv_0_lt_compat, factor_psi_pos.
  - apply exp_increasing.
    pose proof (ln_P_ice_slope (kelvin_of_degF t1) (kelvin_of_degF t2)
                  ltac:(unfold kelvin_of_degF; lra)
                  ltac:(unfold kelvin_of_degF; lra)
                  ltac:(unfold kelvin_of_degF; lra)) as H.
    unfold kelvin_of_degF in *. lra.
Qed.



End IceAndWater.

(** ** Water over ice: the sign of the difference *)

Section WaterOverIce.

(** On [[a, b]] the excess of the water exponent over the ice exponent
    falls at least as fast as the bound [s] computed from [a] and [b]. *)
Lemma water_over_ice_slope (a b s T1 T2 : R) :
  100 <= a -> a <= T1 -> T1 <= T2 -> T2 <= b ->
  125.6847 * (/ a * / a) - 0.038962396 + 4.114261099e-5 * (2 * b)
  - 1.65268755e-8 * (3 * (a * a)) + 9.484024e-13 * (4 * (b * b * b))
  + 2.3824654 * / a <= - s ->
  water_over_ice T2 - water_over_ice T1 <= - s * (T2 - T1).
Proof.
  intros Ha H1 H12 H2 Hs.
  set (d := T2 - T1). assert (Hd : 0 <= d) by (unfold d; lra).
  assert (Hia : 0 < / a) by (apply Rinv_0_lt_compat; lra).
  assert (Hi1 : 0 < / T1 <= / a).
  { split; [apply Rinv_0_lt_compat; lra | apply Rinv_le_contravar; lra]. }
  assert (Hi2 : 0 < / T2 <= / a).
  { split; [apply Rinv_0_lt_compat; lra | apply Rinv_le_contravar; lra]. }
  assert (P0 : 125.6847 * (/ T1 - / T2) <= 125.6847 * (/ a * / a) * d).
  { rewrite Rinv_diff by lra. fold d.
    assert (/ T1 * / T2 <= / a * / a) by (apply Rmult_le_compat; lra).
    assert (d * (/ T1 * / T2) <= d * (/ a * / a))
      by (apply Rmult_le_compat_l; lra).
    lra. }
  assert (P3 : T2 ^ 2 - T1 ^ 2 <= 2 * b * d).
  { replace (T2 ^ 2 - T1 ^ 2) with (d * (T1 + T2)) by (unfold d; ring).
    assert (d * (T1 + T2) <= d * (2 * b)) by (apply Rmult_le_compat_l; lra).
    lra. }
  assert (P4 : 3 * (a * a) * d <= T2 ^ 3 - T1 ^ 3).
  { replace (T2 ^ 3 - T1 ^ 3) with (d * (T1 * T1 + T1 * T2 + T2 * T2))
      by (unfold d; ring).
    assert (3 * (a * a) <= T1 * T1 + T1 * T2 + T2 * T2) by nra.
    assert (d * (3 * (a * a)) <= d * (T1 * T1 + T1 * T2 + T2 * T2))
      by (apply Rmult_le_compat_l; lra).
    lra. }
  assert (P5 : T2 ^ 4 - T1 ^ 4 <= 4 * (b * b * b) * d).
  { replace (T2 ^ 4 - T1 ^ 4)
      with (d * ((T1 + T2) * (T1 * T1 + T2 * T2))) by (unfold d; ring).
    assert (0 <= T1 * T1 + T2 * T2 <= 2 * (b * b)) by nra.
    assert ((T1 + T2) * (T1 * T1 + T2 * T2) <= (2 * b) * (2 * (b * b)))
      by (apply Rmult_le_compat; lra).
    assert (d * ((T1 + T2) * (T1 * T1 + T2 * T2))
            <= d * ((2 * b) * (2 * (b * b))))
      by (apply Rmult_le_compat_l; lra).
    lra. }
  assert (P6 : ln T2 - ln T1 <= / a * d).
  { pose proof (ln_diff_upper T1 T2 ltac:(lra) ltac:(lra)) as H.
    replace (T2 / T1 - 1) with (d * / T1) in H by (unfold d; field; lra).
    assert (d * / T1 <= d * / a) by (apply Rmult_le_compat_l; lra).
    lra. }
  assert (Hsd : (125.6847 * (/ a * / a) - 0.038962396
                 + 4.114261099e-5 * (2 * b) - 1.65268755e-8 * (3 * (a * a))
                 + 9.484024e-13 * (4 * (b * b * b)) + 2.3824654 * / a) * d
                <= - s * d)
    by (apply Rmult_le_compat_r; assumption).
  unfold water_over_ice, ln_P_w, ln_P_ice, Rdiv. unfold d in *.
  generalize dependent (/ a). intros ia. intros.
  generalize dependent (/ T1). intros i1. intros.
  generalize dependent (/ T2). intros i2. intros.
  generalize dependent (ln T1). intros l1. intros.
  generalize dependent (ln T2). intros l2. intros.
  nra.
Qed.

(** [exp 5.61 < 273.15 < exp 5.62] and [exp 5.5 < 255.37], by repeated
    squaring as before; the first needs twenty-four squarings. *)
Lemma exp_5_61_upper : exp 5.61 < 273.15.
Proof.
  assert (H0 : exp (5.61 / 16777216) <= 1.000000334382169002).
  { pose proof (exp_upper_small (5.61 / 16777216) ltac:(lra)) as H.
    assert (/ (1 - 5.61 / 16777216) <= 1.000000334382169002); [| lra].
    apply Rmult_le_reg_r with (1 - 5.61 / 16777216); [lra |].
    rewrite Rinv_l by lra. lra. }
  pose proof (exp_double_upper _ _ 1.000000668764449816 H0
                ltac:(lra)) as H1.
  pose proof (exp_double_upper _ _ 1.000001337529346878 H1
                ltac:(lra)) as H2.
  pose proof (exp_double_upper _ _ 1.000002675060482741 H2
                ltac:(lra)) as H3.
  pose proof (exp_double_upper _ _ 1.000005350128121431 H3
                ltac:(lra)) as H4.
  pose proof (exp_double_upper _ _ 1.000010700284866733 H4
                ltac:(lra)) as H5.
  pose proof (exp_double_upper _ _ 1.000021400684229563 H5
                ltac:(lra)) as H6.
  pose proof (exp_double_upper _ _ 1.000042801826448412 H6
                ltac:(lra)) as H7.
  pose proof (exp_double_upper _ _ 1.000085605484893172 H7
                ltac:(lra)) as H8.
  pose proof (exp_double_upper _ _ 1.000171218298085388 H8
                ltac:(lra)) as H9.
  pose proof (exp_double_upper _ _ 1.000342465911876376 H9
                ltac:(lra)) as H10.
  pose proof (exp_double_upper _ _ 1.000685049106653550 H10
                ltac:(lra)) as H11.
  pose proof (exp_double_upper _ _ 1.001370567505585627 H11
                ltac:(lra)) as H12.
  pose proof (exp_double_upper _ _ 1.002743013466458622 H12
                ltac:(lra)) as H13.
  pose proof (exp_double_upper _ _ 1.005493551055794418 H13
                ltac:(lra)) as H14.
  pose proof (exp_double_upper _ _ 1.011017281214791456 H14
                ltac:(lra)) as H15.
  pose proof (exp_double_upper _ _ 1.022155942914948709 H15
                ltac:(lra)) as H16.
  pose proof (exp_double_upper _ _ 1.044802771636347884 H16
                ltac:(lra)) as H17.
  pose proof (exp_double_upper _ _ 1.091612831618994507 H17
                ltac:(lra)) as H18.
  pose proof (exp_double_upper _ _ 1.191618574155239254 H18
                ltac:(lra)) as H19.
  pose proof (exp_double_upper _ _ 1.419954826271765433 H19
                ltac:(lra)) as H20.
  pose proof (exp_double_upper _ _ 2.016271708652479553 H20
                ltac:(lra)) as H21.
  pose proof (exp_double_upper _ _ 4.065351603112389390 H21
                ltac:(lra)) as H22.
  pose proof (exp_double_upper _ _ 16.527083656928474383 H22
                ltac:(lra)) as H23.
  pose proof (exp_double_upper _ _ 273.144494203112273938 H23
                ltac:(lra)) as H24.
replace (2 * (2 * (2 * (2 * (2 * (2 * (2 * (2 * (2 * (2 * (2 * (2 * (2 * (2
    * (2 * (2 * (2 * (2 * (2 * (2 * (2 * (2 * (2 * (2 * (5.61 /
    16777216)))))))))))))))))))))))))
    with 5.61 in H24 by lra.
  lra.
Qed.

Lemma exp_5_62_lower : 273.15 < exp 5.62.
Proof.
  assert (H0 : 1 + 5.62 / 4096 <= exp (5.62 / 4096)) by apply exp_ineq1_le.
  pose proof (exp_double_lower _ _ 1.002746023201 H0
                ltac:(lra) ltac:(lra)) as H1.
  pose proof (exp_double_lower _ _ 1.005499587045 H1
                ltac:(lra) ltac:(lra)) as H2.
  pose proof (exp_double_lower _ _ 1.011029419547 H2
                ltac:(lra) ltac:(lra)) as H3.
  pose proof (exp_double_lower _ _ 1.022180487189 H3
                ltac:(lra) ltac:(lra)) as H4.
  pose proof (exp_double_lower _ _ 1.044852948389 H4
                ltac:(lra) ltac:(lra)) as H5.
  pose proof (exp_double_lower _ _ 1.091717683757 H5
                ltac:(lra) ltac:(lra)) as H6.
  pose proof (exp_double_lower _ _ 1.191847501027 H6
                ltac:(lra) ltac:(lra)) as H7.
  pose proof (exp_double_lower _ _ 1.420500465704 H7
                ltac:(lra) ltac:(lra)) as H8.
  pose proof (exp_double_lower _ _ 2.017821573065 H8
                ltac:(lra) ltac:(lra)) as H9.
  pose proof (exp_double_lower _ _ 4.071603900726 H9
                ltac:(lra) ltac:(lra)) as H10.
  pose proof (exp_double_lower _ _ 16.577958324407 H10
                ltac:(lra) ltac:(lra)) as H11.
  pose proof (exp_double_lower _ _ 274.828702205775 H11
                ltac:(lra) ltac:(lra)) as H12.
replace (2 * (2 * (2 * (2 * (2 * (2 * (2 * (2 * (2 * (2 * (2 * (2 * (5.62 /
    4096)))))))))))))
    with 5.62 in H12 by lra.
  lra.
Qed.

Lemma exp_5_5_upper : exp 5.5 < 255.37.
Proof.
  assert (H0 : exp (5.5 / 2048) <= 1.002692778458).
  { pose proof (exp_upper_small (5.5 / 2048) ltac:(lra)) as H.
    assert (/ (1 - 5.5 / 2048) <= 1.002692778458); [| lra].
    apply Rmult_le_reg_r with (1 - 5.5 / 2048); [lra |].
    rewrite Rinv_l by lra. lra. }
  pose proof (exp_double_upper _ _ 1.005392807972 H0
                ltac:(lra)) as H1.
  pose proof (exp_double_upper _ _ 1.010814698322 H1
                ltac:(lra)) as H2.
  pose proof (exp_double_upper _ _ 1.021746354344 H2
                ltac:(lra)) as H3.
  pose proof (exp_double_upper _ _ 1.043965612616 H3
                ltac:(lra)) as H4.
  pose proof (exp_double_upper _ _ 1.089864200325 H4
                ltac:(lra)) as H5.
  pose proof (exp_double_upper _ _ 1.187803975151 H5
                ltac:(lra)) as H6.
  pose proof (exp_double_upper _ _ 1.410878283385 H6
                ltac:(lra)) as H7.
  pose proof (exp_double_upper _ _ 1.990577530528 H7
                ltac:(lra)) as H8.
  pose proof (exp_double_upper _ _ 3.962398905043 H8
                ltac:(lra)) as H9.
  pose proof (exp_double_upper _ _ 15.700605082686 H9
                ltac:(lra)) as H10.
  pose proof (exp_double_upper _ _ 246.508999962466 H10
                ltac:(lra)) as H11.
replace (2 * (2 * (2 * (2 * (2 * (2 * (2 * (2 * (2 * (2 * (2 * (5.5 /
    2048))))))))))))
    with 5.5 in H11 by lra.
  lra.
Qed.

Lemma ln_273_15 : 5.61 < ln 273.15 < 5.62.
Proof.
  pose proof exp_5_61_upper. pose proof exp_5_62_lower.
  split; apply exp_lt_inv; rewrite exp_ln by lra; lra.
Qed.

(** At 273.15 K (32 F) the water exponent is above the ice exponent, by
    less than 0.024. *)
Lemma water_over_ice_freezing : 0.00004 < water_over_ice 273.15 < 0.024.
Proof.
  pose proof ln_273_15. unfold water_over_ice, ln_P_w, ln_P_ice. lra.
Qed.

(** From 173.15 K to 305.15 K the excess falls by at least 0.004 per
    kelvin. *)
Lemma water_over_ice_decreasing (T1 T2 : R) :
  173.15 <= T1 -> T1 <= T2 -> T2 <= 305.15 ->
  water_over_ice T2 - water_over_ice T1 <= - 0.004 * (T2 - T1).
Proof.
  intros H1 H12 H2.
  assert (S1 : forall x y, 173.15 <= x -> x <= y -> y <= 215 ->
                 water_over_ice y - water_over_ice x <= - 0.004 * (y - x)).
  { intros x y Hx Hxy Hy.
    pose proof (water_over_ice_slope 173.15 215 0.004 x y
                  ltac:(lra) Hx Hxy Hy ltac:(lra)).
    lra. }
  assert (S2 : forall x y, 215 <= x -> x <= y -> y <= 260 ->
                 water_over_ice y - water_over_ice x <= - 0.004 * (y - x)).
  { intros x y Hx Hxy Hy.
    pose proof (water_over_ice_slope 215 260 0.004 x y
                  ltac:(lra) Hx Hxy Hy ltac:(lra)).
    lra. }
  assert (S3 : forall x y, 260 <= x -> x <= y -> y <= 305.15 ->
                 water_over_ice y - water_over_ice x <= - 0.004 * (y - x)).
  { intros x y Hx Hxy Hy.
    pose proof (water_over_ice_slope 260 305.15 0.004 x y
                  ltac:(lra) Hx Hxy Hy ltac:(lra)).
    lra. }
  destruct (Rle_dec T2 215) as [A | A]; [apply S1; lra |].
  destruct (Rle_dec 260 T1) as [B | B]; [apply S3; lra |].
  destruct (Rle_dec 215 T1) as [C | C]; destruct (Rle_dec T2 260) as [E | E].
  - apply S2; lra.
  - pose proof (S2 T1 260 ltac:(lra) ltac:(lra) ltac:(lra)).
    pose proof (S3 260 T2 ltac:(lra) ltac:(lra) ltac:(lra)). lra.
  - pose proof (S1 T1 215 ltac:(lra) ltac:(lra) ltac:(lra)).
    pose proof (S2 215 T2 ltac:(lra) ltac:(lra) ltac:(lra)). lra.
  - pose proof (S1 T1 215 ltac:(lra) ltac:(lra) ltac:(lra)).
    pose proof (S2 215 260 ltac:(lra) ltac:(lra) ltac:(lra)).
    pose proof (S3 260 T2 ltac:(lra) ltac:(lra) ltac:(lra)). lra.
Qed.

(** Below 32 F the water correlation is above the ice correlation. *)
Lemma water_over_ice_below_freezing (T : R) :
  173.15 <= T <= 273.15 ->
  0.00004 + 0.004 * (273.15 - T) < water_over_ice T.
Proof.
  intros HT.
  pose proof (water_over_ice_decreasing T 273.15 ltac:(lra) ltac:(lra) ltac:(lra)).
  pose proof water_over_ice_freezing. lra.
Qed.

(** From 279.15 K (42.8 F) to 305.15 K (89.6 F) it is below. *)
Lemma water_over_ice_above_freezing (T : R) :
  279.15 <= T <= 305.15 -> water_over_ice T < 0.
Proof.
  intros HT.
  pose proof (water_over_ice_decreasing 273.15 T ltac:(lra) ltac:(lra) ltac:(lra)).
  pose proof water_over_ice_freezing. lra.
Qed.

Lemma p_w_over_p_ice (t : R) :
  p_w t = p_ice t * exp (water_over_ice (kelvin_of_degF t)).
Proof.
  unfold p_w, p_ice, water_over_ice.
  replace (ln_P_w (kelvin_of_degF t))
    with (ln_P_ice (kelvin_of_degF t)
          + (ln_P_w (kelvin_of_degF t) - ln_P_ice (kelvin_of_degF t)))
    at 1 by ring.
  rewrite exp_plus. unfold Rdiv. ring.
Qed.

Lemma p_ice_below_p_w (t : R) : -148 <= t <= 32 -> p_ice t < p_w t.
Proof.
  intros Ht. rewrite p_w_over_p_ice.
  pose proof (p_ice_pos t) as Hp.
  pose proof (water_over_ice_below_freezing (kelvin_of_degF t)
                ltac:(unfold kelvin_of_degF; lra)) as HD.
  assert (0 < water_over_ice (kelvin_of_degF t))
    by (unfold kelvin_of_degF in *; lra).
  pose proof (exp_ineq1 (water_over_ice (kelvin_of_degF t)) ltac:(lra)).
  nra.
Qed.

Lemma p_w_below_p_ice (t : R) : 42.8 <= t <= 89.6 -> p_w t < p_ice t.
Proof.
  intros Ht. rewrite p_w_over_p_ice.
  pose proof (p_ice_pos t) as Hp.
  pose proof (water_over_ice_above_freezing (kelvin_of_degF t)
                ltac:(unfold kelvin_of_degF; lra)) as HD.
  assert (exp (water_over_ice (kelvin_of_degF t)) < 1).
  { rewrite <- exp_0. apply exp_increasing. exact HD. }
  nra.
Qed.

End WaterOverIce.

(** ** The saturation pressure and ratio across 32 F *)

Section AcrossFreezing.

Lemma p_v_ice (t : R) : t < 32 -> p_v t = p_ice t.
Proof. intros H. unfold p_v. destruct (Rlt_dec t 32); [reflexivity | lra]. Qed.

Lemma p_v_water (t : R) : 32 <= t -> p_v t = p_w t.
Proof. intros H. unfold p_v. destruct (Rlt_dec t 32); [lra | reflexivity]. Qed.

Lemma P_v_sat_degF (t : R) :
  -459.67 < t -> P_v_sat (Quantity t degF) = Ok (Quantity (p_v t) psi).
Proof.
  intros Ht. destruct (Rlt_dec t 32) as [Hc | Hw].
  - rewrite P_v_sat_ice, p_v_ice by (simpl; lra).
    apply P_ice_sat_degF. unfold kelvin_of_degF. lra.
  - rewrite P_v_sat_water, p_v_water by (simpl; lra).
    apply P_w_sat_degF. unfold kelvin_of_degF. lra.
Qed.

Lemma p_v_domain (t : R) : -148 <= t <= 200 -> 0 < p_v t < 14.6.
Proof.
  intros Ht. destruct (Rlt_dec t 32) as [Hc | Hw].
  - rewrite p_v_ice by lra. pose proof (p_ice_freezing t ltac:(lra)). lra.
  - rewrite p_v_water by lra. apply p_w_below_boiling. lra.
Qed.

Lemma p_v_increasing (t1 t2 : R) :
  -148 <= t1 -> t1 < t2 -> t2 <= 200 -> p_v t1 < p_v t2.
Proof.
  intros H1 H12 H2.
  destruct (Rlt_dec t2 32) as [C2 | W2].
  - rewrite !p_v_ice by lra. apply p_ice_increasing; lra.
  - destruct (Rlt_dec t1 32) as [C1 | W1].
    + rewrite p_v_ice, p_v_water by lra.
      pose proof (p_ice_increasing t1 32 ltac:(lra) ltac:(lra) ltac:(lra)).
      pose proof (p_ice_below_p_w 32 ltac:(lra)).
      destruct (Req_dec t2 32) as [-> | Hne]; [lra |].
      pose proof (p_w_increasing 32 t2 ltac:(lra) ltac:(lra) ltac:(lra)). lra.
    + rewrite !p_v_water by lra. apply p_w_increasing; lra.
Qed.

Lemma W_sat_degF (t : R) :
  -148 <= t <= 200 ->
  W_sat (Quantity t degF) = Ok (Quantity (ratio (p_v t)) lb_per_lb).
Proof.
  intros Ht. pose proof (p_v_domain t Ht).
  apply (W_sat_formula _ (Quantity (p_v t) psi)).
  - apply P_v_sat_degF. lra.
  - simpl. lra.
Qed.



(** X10: below 32 F the ratio [W] at [RH = 1] is strictly above
    [W_sat]: [W] takes the pressure over water, [W_sat] the smaller
    pressure over ice, at every temperature from -148 F up to 32 F. *)
Theorem W_saturated_above_W_sat_below_freezing (t : R) :
  -148 <= t -> t < 32 ->
  exists w ws : R,
    W (Quantity t degF) (Quantity 1 percent) = Ok (Quantity w lb_per_lb) /\
    W_sat (Quantity t degF) = Ok (Quantity ws lb_per_lb) /\
    0 < ws /\ ws < w.
Proof.
  intros H1 H2.
  pose proof (p_ice_freezing t ltac:(lra)) as Hi.
  pose proof (p_w_domain t ltac:(lra)) as Hw.
  pose proof (p_ice_below_p_w t ltac:(lra)) as Hlt.
  destruct (W_defined t 1 percent ltac:(lra) ltac:(lra)) as [HW _].
  rewrite Rmult_1_r in HW.
  exists (ratio (p_w t)), (ratio (p_ice t)).
  split; [exact HW |].
  split; [apply W_sat_ice_degF; lra |].
  split; [apply ratio_pos; lra | apply ratio_increasing; lra].
Qed.

Lemma W_saturated_above_W_sat_below_freezing_witness :
  exists w ws : R,
    W (Quantity 20 degF) (Quantity 1 percent) = Ok (Quantity w lb_per_lb) /\
    W_sat (Quantity 20 degF) = Ok (Quantity ws lb_per_lb) /\
    0 < ws /\ ws < w.
Proof. apply (W_saturated_above_W_sat_below_freezing 20); lra. Defined.

End AcrossFreezing.

(** ** [P_v_sat] on a temperature that is not in Fahrenheit *)

Section Magnitude.

Lemma P_ice_sat_degC (t : R) :
  P_ice_sat (Quantity (celsius_of_degF t) degC) = P_ice_sat (Quantity t degF).
Proof. unfold P_ice_sat. rewrite to_kelvin_of_degC. reflexivity. Qed.

Lemma P_w_sat_kelvin (t : R) :
  P_w_sat (Quantity (kelvin_of_degF t) kelvin) = P_w_sat (Quantity t degF).
Proof. unfold P_w_sat. rewrite to_kelvin_of_kelvin. reflexivity. Qed.

Lemma P_v_sat_Celsius (c : R) :
  6 <= c -> c < 32 ->
  exists p_C p_F : R,
    P_v_sat (Quantity c degC) = Ok (Quantity p_C psi) /\
    P_v_sat (Quantity (c * 9 / 5 + 32) degF) = Ok (Quantity p_F psi) /\
    p_F < p_C.
Proof.
  intros H1 H2. set (t := c * 9 / 5 + 32).
  assert (Ht : 42.8 <= t < 89.6) by (unfold t; lra).
  exists (p_ice t), (p_w t). split; [| split].
  - rewrite P_v_sat_ice by (simpl; lra).
    replace c with (celsius_of_degF t) by (unfold celsius_of_degF, t; lra).
    rewrite P_ice_sat_degC. apply P_ice_sat_degF. unfold kelvin_of_degF. lra.
  - rewrite P_v_sat_water by (simpl; lra).
    apply P_w_sat_degF. unfold kelvin_of_degF. lra.
  - apply p_w_below_p_ice. lra.
Qed.

Lemma P_v_sat_kelvin (k : R) :
  173.15 <= k -> k < 273.15 ->
  exists p_K p_F : R,
    P_v_sat (Quantity k kelvin) = Ok (Quantity p_K psi) /\
    P_v_sat (Quantity (k * 9 / 5 - 459.67) degF) = Ok (Quantity p_F psi) /\
    p_F < p_K.
Proof.
  intros H1 H2. set (t := k * 9 / 5 - 459.67).
  assert (Ht : -148 <= t < 32) by (unfold t; lra).
  exists (p_w t), (p_ice t). split; [| split].
  - rewrite P_v_sat_water by (simpl; lra).
    replace k with (kelvin_of_degF t) by (unfold kelvin_of_degF, t; lra).
    rewrite P_w_sat_kelvin. apply P_w_sat_degF. unfold kelvin_of_degF. lra.
  - rewrite P_v_sat_ice by (simpl; lra).
    apply P_ice_sat_degF. unfold kelvin_of_degF. lra.
  - apply p_ice_below_p_w. lra.
Qed.

(** X11: [P_v_sat] compares the magnitude of its argument with 32
    whatever the unit, so the same temperature can get two pressures.  A
    temperature of 6 to 32 degrees Celsius (42.8 F to 89.6 F) passed in
    Celsius takes the ice correlation and gets a strictly larger pressure
    than when passed in Fahrenheit; a temperature of 173.15 K to 273.15 K
    (-148 F to 32 F) passed in kelvin takes the water correlation and
    gets a strictly larger pressure than when passed in Fahrenheit. *)
Theorem P_v_sat_dispatches_on_magnitude :
  (forall c : R,
     6 <= c -> c < 32 ->
     exists p_C p_F : R,
       P_v_sat (Quantity c degC) = Ok (Quantity p_C psi) /\
       P_v_sat (Quantity (c * 9 / 5 + 32) degF) = Ok (Quantity p_F psi) /\
       p_F < p_C) /\
  (forall k : R,
     173.15 <= k -> k < 273.15 ->
     exists p_K p_F : R,
       P_v_sat (Quantity k kelvin) = Ok (Quantity p_K psi) /\
       P_v_sat (Quantity (k * 9 / 5 - 459.67) degF) = Ok (Quantity p_F psi) /\
       p_F < p_K).
Proof. split; [exact P_v_sat_Celsius | exact P_v_sat_kelvin]. Qed.

End Magnitude.

(** ** Saturated air between 0 F and 31 F: the loop is never left *)

Section FreezingSaturated.

Lemma W0_depression_enclosure (t_db t_wb : R) :
  -148 <= t_wb -> t_wb <= t_db -> t_db <= 200 ->
  exists w : R,
    W0 (Quantity t_db degF) (Quantity t_wb degF) = Ok (Quantity w lb_per_lb) /\
    - 0.0004 * (t_db - t_wb) <= w <= ratio (p_v t_wb).
Proof.
  intros H1 H12 H2.
  pose proof (W_sat_degF t_wb ltac:(lra)) as HWs.
  pose proof (p_v_domain t_wb ltac:(lra)) as Hp.
  pose proof (ratio_pos (p_v t_wb) ltac:(lra) ltac:(lra)) as Hws.
  set (ws := ratio (p_v t_wb)) in *.
  destruct (domain_heats t_db t_wb ltac:(lra) ltac:(lra)) as (Hcw & Hcv & Hcda).
  set (a := (1069.9 - (cp_w t_wb - cp_v t_db) * t_wb) * ws
            - cp_da t_db t_wb * (t_db - t_wb)).
  set (b := 1069.9 + cp_v t_db * t_db - cp_w t_wb * t_wb).
  assert (Hb : 700 < b) by (unfold b; nra).
  assert (Hab : a = b * ws - (t_db - t_wb) * (cp_v t_db * ws + cp_da t_db t_wb))
    by (unfold a, b; ring).
  assert (Hpos : 0 < cp_v t_db * ws + cp_da t_db t_wb) by nra.
  assert (HX : 0 <= (1069.9 - (cp_w t_wb - cp_v t_db) * t_wb) * ws).
  { apply Rmult_le_pos; [nra | lra]. }
  assert (Hlow : - 0.25 * (t_db - t_wb) <= a) by (unfold a; nra).
  exists (a / b). split; [| split].
  - unfold W0.
    rewrite Cp_water_degF, Cp_vapor_degF, Cp_dry_air_degF, HWs. simpl bind.
    cbv zeta. simpl m. fold a b. rewrite div_Ok by lra. reflexivity.
  - apply Rmult_le_reg_r with b; [lra |].
    unfold Rdiv. rewrite (Rmult_assoc a), Rinv_l by lra. nra.
  - apply Rmult_le_reg_r with b; [lra |].
    unfold Rdiv. rewrite Rmult_assoc, Rinv_l by lra. nra.
Qed.

(** 0 F is 255.37 K; the ice correlation gives more than 0.0129 psi. *)
Lemma p_ice_0_lower : 0.0129 < p_ice 0.
Proof.
  assert (Hl : 4.67 < ln_P_ice (kelvin_of_degF 0)).
  { unfold ln_P_ice. set (T := kelvin_of_degF 0).
    assert (HT : 255.37 < T < 255.38) by (unfold T, kelvin_of_degF; lra).
    assert (Hln : 5.5 < ln T).
    { pose proof exp_5_5_upper.
      apply exp_lt_inv. rewrite exp_ln by lra. lra. }
    assert (H0 : -22.221 < -5.6745359e03 / T).
    { apply Rmult_lt_reg_r with T; [lra |].
      unfold Rdiv. rewrite Rmult_assoc, Rinv_l by lra. nra. }
    assert (H2 : 65213 < T ^ 2 < 65219) by nra.
    assert (H3 : 16653000 < T ^ 3).
    { replace (T ^ 3) with (T * T ^ 2) by ring. nra. }
    assert (H4 : T ^ 4 < 4253600000).
    { replace (T ^ 4) with (T ^ 2 * T ^ 2) by ring. nra. }
    lra. }
  apply exp_increasing in Hl.
  replace 4.67 with (INR 4 + 0.67) in Hl by (simpl; lra).
  rewrite exp_plus, exp_INR in Hl.
  pose proof (exp_ineq1_le 0.67). pose proof exp_1_lower.
  assert (2.71 ^ 4 <= exp 1 ^ 4) by (apply pow_incr; lra).
  assert (89 < exp (ln_P_ice (kelvin_of_degF 0))) by nra.
  pose proof factor_psi_bounds. unfold p_ice.
  apply Rmult_lt_reg_r with (factor psi); [lra |].
  unfold Rdiv. rewrite Rmult_assoc, Rinv_l by lra. nra.
Qed.

(** Up to 31 F the water exponent is at least 0.0048 above the ice
    exponent. *)
Lemma water_over_ice_31 (T : R) :
  173.15 <= T <= 272.595 -> 0.0048 < water_over_ice T.
Proof.
  intros HT.
  pose proof (water_over_ice_slope 260 273.15 0.0087 272.595 273.15
                ltac:(lra) ltac:(lra) ltac:(lra) ltac:(lra) ltac:(lra)).
  pose proof (water_over_ice_decreasing T 272.595
                ltac:(lra) ltac:(lra) ltac:(lra)).
  pose proof water_over_ice_freezing. lra.
Qed.

Variable t : R.
Hypothesis t_range : 0 < t <= 31.

Lemma freezing_pressures (T : R) :
  0 < T <= t ->
  0 < p_v T /\ p_v T + 0.00006 <= p_w t /\ 0.0129 < p_w t < 14.6.
Proof.
  intros HT. rewrite p_v_ice by lra.
  pose proof (p_ice_pos T) as Hpos.
  assert (HTt : p_ice T <= p_ice t).
  { destruct (Req_dec T t) as [-> | Hne]; [lra |].
    pose proof (p_ice_increasing T t ltac:(lra) ltac:(lra) ltac:(lra)). lra. }
  pose proof (p_ice_increasing 0 t ltac:(lra) ltac:(lra) ltac:(lra)) as H0t.
  pose proof p_ice_0_lower as H0.
  pose proof (water_over_ice_31 (kelvin_of_degF t)
                ltac:(unfold kelvin_of_degF; lra)) as HD.
  pose proof (exp_ineq1_le (water_over_ice (kelvin_of_degF t))) as He.
  pose proof (p_w_over_p_ice t) as E.
  pose proof (p_w_domain t ltac:(lra)) as Hw.
  assert (p_ice t * 1.0048 <= p_w t) by nra.
  repeat split; nra.
Qed.

Lemma freezing_target (u : unit_name) :
  W (Quantity t degF) (Quantity 1 u) = Ok (Quantity (ratio (p_w t)) lb_per_lb)
  /\ 0.0005 < ratio (p_w t).
Proof.
  destruct (freezing_pressures t ltac:(lra)) as (_ & _ & Hp).
  destruct (W_defined t 1 u ltac:(lra) ltac:(lra)) as [HW _].
  rewrite Rmult_1_r in HW. split; [exact HW |].
  unfold ratio. apply Rmult_lt_reg_r with (14.696 - p_w t); [lra |].
  unfold Rdiv. rewrite Rmult_assoc, Rinv_l by lra. nra.
Qed.

Lemma freezing_estimate (T : R) :
  0 < T <= t ->
  exists w : R,
    W0 (Quantity t degF) (Quantity T degF) = Ok (Quantity w lb_per_lb) /\
    -0.0124 <= w /\ w + 0.000002 <= ratio (p_w t).
Proof.
  intros HT.
  destruct (W0_depression_enclosure t T ltac:(lra) ltac:(lra) ltac:(lra))
    as (w & HW & Hlo & Hhi).
  destruct (freezing_pressures T HT) as (Hpv & Hgap & Hpw).
  pose proof (ratio_gap (p_v T) (p_w t) 0.00006
                ltac:(lra) ltac:(lra) Hgap ltac:(lra)).
  exists w. split; [exact HW |]. split; nra.
Qed.

(** The loop invariant: the trial is in (0, t] and the estimate is at
    least [2e-6] below the target. *)
Lemma freezing_loop (fuel : nat) :
  forall T w : R,
    0 < T <= t ->
    -0.0124 <= w -> w + 0.000002 <= ratio (p_w t) ->
    exists (T' : R) (w' : qty),
      while_loop fuel (Quantity t degF) (Quantity (ratio (p_w t)) lb_per_lb)
                 T (Quantity w lb_per_lb)
      = Running T' w'
      /\ 0 < T' <= T.
Proof.
  destruct (freezing_target degF) as [_ HW].
  set (_W := ratio (p_w t)) in *.
  induction fuel as [| fuel IH]; intros T w HT Hw1 Hw2; simpl.
  - destruct (Rgt_dec (Rabs (w - _W)) epsilon) as [_ | Hn].
    + exists T, (Quantity w lb_per_lb). split; [reflexivity | lra].
    + exfalso. apply Hn. unfold epsilon. rewrite Rabs_left by lra. lra.
  - destruct (Rgt_dec (Rabs (w - _W)) epsilon) as [_ | Hn].
    2:{ exfalso. apply Hn. unfold epsilon. rewrite Rabs_left by lra. lra. }
    unfold loop_body, deltaW. simpl m.
    destruct (Rgt_dec (Rabs (w - _W)) 0) as [_ | Hn].
    2:{ exfalso. apply Hn. rewrite Rabs_left by lra. lra. }
    rewrite div_Ok by lra. simpl bind. cbv zeta.
    rewrite (Rabs_pos_eq (_W - w)) by lra.
    set (d := (_W - w) / _W / 100).
    assert (Hx : 0 < (_W - w) / _W < 100).
    { split; [apply Rdiv_lt_0_compat; lra |].
      apply Rmult_lt_reg_r with _W; [lra |].
      unfold Rdiv. rewrite Rmult_assoc, Rinv_l by lra. lra. }
    assert (Hd : 0 < d < 1) by (unfold d; lra).
    assert (HT' : 0 < T * (1 - d) <= t) by nra.
    destruct (freezing_estimate _ HT') as (w' & -> & Hw1' & Hw2'). simpl bind.
    cbv iota beta.
    destruct (IH _ _ HT' Hw1' Hw2') as (T'' & w'' & E & HT'').
    exists T'', w''. split; [exact E | nra].
Qed.

(** X12: for every dry bulb above 0 F and up to 31 F at [RH = 1] the
    solver never leaves its loop: the target, from the pressure over
    water, is more than [1e-6] above every estimate the shrinking trial
    can reach, and after any number of iterations the run is still
    iterating, with a trial in (0 F, T_db]. *)
Theorem T_wb_iter_never_returns_below_freezing (fuel : nat) :
  exists (T_wbm : R) (_W0 : qty),
    T_wb_iter fuel (Quantity t degF) (Quantity 1 percent) = Running T_wbm _W0
    /\ 0 < T_wbm <= t.
Proof.
  destruct (freezing_target percent) as [HW _].
  destruct (freezing_estimate t ltac:(lra)) as (w & H0 & Hw1 & Hw2).
  unfold T_wb_iter. cbv zeta. rewrite HW, H0. simpl bind. cbv iota beta.
  simpl m. apply freezing_loop; [lra | assumption | assumption].
Qed.

End FreezingSaturated.

Lemma T_wb_iter_never_returns_below_freezing_witness :
  exists (T_wbm : R) (_W0 : qty),
    T_wb_iter 1000 (Quantity 20 degF) (Quantity 1 percent) = Running T_wbm _W0
    /\ 0 < T_wbm <= 20.
Proof.
  apply (T_wb_iter_never_returns_below_freezing 20); lra.
Defined.

(** ** A trial below the dew point *)

Section BelowDewPoint.

Lemma ratio_p_v_monotone (T1 T2 : R) :
  -148 <= T1 -> T1 <= T2 -> T2 <= 200 -> ratio (p_v T1) <= ratio (p_v T2).
Proof.
  intros H1 H12 H2.
  destruct (Req_dec T1 T2) as [-> | Hne]; [lra |].
  pose proof (p_v_domain T1 ltac:(lra)). pose proof (p_v_domain T2 ltac:(lra)).
  pose proof (p_v_increasing T1 T2 ltac:(lra) ltac:(lra) ltac:(lra)).
  pose proof (ratio_increasing (p_v T1) (p_v T2) ltac:(lra) ltac:(lra) ltac:(lra)).
  lra.
Qed.

(** A dry bulb and a target for which one step cannot take the trial to
    zero or below. *)
Variable t : R.
Variable _W : qty.
Hypothesis t_range : 0 < t <= 200.
Hypothesis target_range : 0.0004 * t < 99 * m _W.

Lemma dew_loop (fuel : nat) :
  forall T w : R,
    0 < T <= t ->
    ratio (p_v T) + epsilon < m _W ->
    - 0.0004 * (t - T) <= w <= ratio (p_v T) ->
    exists (T' : R) (w' : qty),
      while_loop fuel (Quantity t degF) _W T (Quantity w lb_per_lb)
      = Running T' w'
      /\ 0 < T' <= T.
Proof.
  assert (HW : 0 < m _W) by lra.
  induction fuel as [| fuel IH]; intros T w HT Hdew Hw; simpl.
  - destruct (Rgt_dec (Rabs (w - m _W)) epsilon) as [_ | Hn].
    + exists T, (Quantity w lb_per_lb). split; [reflexivity | lra].
    + exfalso. apply Hn. unfold epsilon in *. rewrite Rabs_left by lra. lra.
  - destruct (Rgt_dec (Rabs (w - m _W)) epsilon) as [_ | Hn].
    2:{ exfalso. apply Hn. unfold epsilon in *.
        rewrite Rabs_left by lra. lra. }
    unfold loop_body, deltaW. simpl m.
    assert (Hbelow : w < m _W) by (unfold epsilon in *; lra).
    destruct (Rgt_dec (Rabs (w - m _W)) 0) as [_ | Hn].
    2:{ exfalso. apply Hn. rewrite Rabs_left by lra. lra. }
    rewrite div_Ok by lra. simpl bind. cbv zeta.
    rewrite (Rabs_pos_eq (m _W - w)) by lra.
    set (d := (m _W - w) / m _W / 100).
    assert (Hx : 0 < (m _W - w) / m _W < 100).
    { split; [apply Rdiv_lt_0_compat; lra |].
      apply Rmult_lt_reg_r with (m _W); [lra |].
      unfold Rdiv. rewrite Rmult_assoc, Rinv_l by lra. nra. }
    assert (Hd : 0 < d < 1) by (unfold d; lra).
    assert (HT' : 0 < T * (1 - d) <= T) by nra.
    destruct (W0_depression_enclosure t (T * (1 - d))
                ltac:(lra) ltac:(lra) ltac:(lra)) as (w' & -> & Hw').
    simpl bind. cbv iota beta.
    pose proof (ratio_p_v_monotone (T * (1 - d)) T
                  ltac:(lra) ltac:(lra) ltac:(lra)) as Hmono.
    destruct (IH (T * (1 - d)) w' ltac:(lra) ltac:(lra) Hw')
      as (T'' & w'' & E & HT'').
    exists T'', w''. split; [exact E | lra].
Qed.

(** X13: a trial below the dew point is never recovered.  Let the dry
    bulb be in (0 F, 200 F] and the target large enough that one step
    cannot take the trial to zero ([0.0004 T_db < 99 W]).  If the loop is
    at a trial in (0 F, T_db] whose saturated ratio [W_sat] is more than
    [1e-6] below the target, then, the step rule only ever shrinking the
    trial, the loop is still iterating after any number of iterations. *)
Theorem below_dew_point_never_returns (fuel : nat) (T : R) (_W0 ws : qty) :
  0 < T <= t ->
  W0 (Quantity t degF) (Quantity T degF) = Ok _W0 ->
  W_sat (Quantity T degF) = Ok ws ->
  m ws + epsilon < m _W ->
  exists (T' : R) (w' : qty),
    while_loop fuel (Quantity t degF) _W T _W0 = Running T' w'
    /\ 0 < T' <= T.
Proof.
  intros HT H0 Hs Hdew.
  rewrite W_sat_degF in Hs by lra. injection Hs as <-. simpl in Hdew.
  destruct (W0_depression_enclosure t T ltac:(lra) ltac:(lra) ltac:(lra))
    as (w & E & Hw).
  rewrite E in H0. injection H0 as <-.
  apply dew_loop; assumption.
Qed.

End BelowDewPoint.

Lemma below_dew_point_never_returns_witness :
  exists (T' : R) (w' : qty),
    while_loop 1000 (Quantity 20 degF) (Quantity (ratio (p_w 20)) lb_per_lb)
               20 (Quantity (ratio (p_v 20)) lb_per_lb)
    = Running T' w'
    /\ 0 < T' <= 20.
Proof.
  destruct (freezing_pressures 20 ltac:(lra) 20 ltac:(lra)) as (Hpv & Hgap & Hpw).
  destruct (freezing_target 20 ltac:(lra) percent) as [_ Ht].
  pose proof (ratio_gap (p_v 20) (p_w 20) 0.00006
                ltac:(lra) ltac:(lra) Hgap ltac:(lra)) as Hr.
  apply (below_dew_point_never_returns 20
           (Quantity (ratio (p_w 20)) lb_per_lb) ltac:(lra)
           ltac:(simpl; lra) 1000 20
           (Quantity (ratio (p_v 20)) lb_per_lb)
           (Quantity (ratio (p_v 20)) lb_per_lb)).
  - lra.
  - rewrite W0_same_bulb by lra. apply W_sat_degF. lra.
  - apply W_sat_degF. lra.
  - simpl. unfold epsilon. lra.
Defined.

(** ** [W1] when the module-level [Twb] is the wet-bulb argument *)

Section MatchingGlobal.

Variable g : globals.
Variables t_db t_wb : R.
Hypothesis Twb_is_argument : g "Twb"%string = Some (Quantity t_wb degF).
Hypothesis wet_below_dry : -148 <= t_wb /\ t_wb <= t_db /\ t_db <= 200.


End MatchingGlobal.


(** ** The first step of the solver from 32 F up *)

Section FirstStep.

Variables t rh : R.
Variable u : unit_name.
Hypothesis t_range : 32 <= t <= 200.




End FirstStep.


